(** * Multi-asset strategy tester

    A shallow embedding of [src/agents/rbi_multi_asset_tester.py] (class
    [MultiAssetTester]) and the properties of its variant generator, metrics
    extractor, orchestrator and ranking summary.

    Modelling conventions.
    - A Python [str] is a Rocq [string]: one [ascii] per character, so the
      model covers texts whose code points are below 256.  The character
      classes of [re] ([\s], [\d], [.], case folding) are the ones Python
      applies to those code points.
    - A Python [float] is modelled by the exact rational it was read from
      ([Q], kept in lowest terms); rounding is not modelled.  A value at or
      beyond [2^1024 - 2^970] in size is read as an infinity by Python: the
      model keeps its exact value and tells it apart with [is_infinite],
      where the code applies [int] to it.
    - The file system is the map from the text of a path to the content of
      the regular file there.  A directory is there when a file lies below
      it.  Paths are taken as they are written: there are no symbolic
      links, a component [..] is a name like any other, relative paths are
      not related to absolute ones, and access rights are not modelled.
    - A call that can raise returns an [outcome]; [try]/[except] is a [match]
      on it.
    - [print] only writes to the console and is left out. *)

From Stdlib Require Import QArith Qabs Ascii String Sorted.
From stdpp Require Import gmap strings list.

Open Scope string_scope.
Open Scope list_scope.

(** ** Python values, exceptions and outcomes *)

Inductive exn : Type :=
| ValueError (msg : string)
| TypeError (msg : string)
| KeyError (key : string)
| OverflowError (msg : string)
| FileNotFoundError (msg : string)
| FileExistsError (msg : string)
| NotADirectoryError (msg : string)
| IsADirectoryError (msg : string)
| re_error (msg : string)
| BrokenProcessPool (msg : string)
| RuntimeError (msg : string).

Definition nl : ascii := "010"%char.
Definition cr : ascii := "013"%char.
Definition tab : ascii := "009"%char.
Definition dquote : ascii := "034"%char.
Definition squote : ascii := "039"%char.
Definition backslash : ascii := "092"%char.

(** [c in s] for a character. *)
Fixpoint has_char (c : ascii) (s : string) : bool :=
  match s with
  | "" => false
  | String a s' => Ascii.eqb a c || has_char c s'
  end.

(** [repr(s)] of a [str].  The text is put between single quotes, or
    between double quotes when it has a single quote and no double one; the
    quote, the backslash and the characters that are not printable are
    escaped. *)
Definition isprintable (c : ascii) : bool :=
  let n := nat_of_ascii c in
  (((32 <=? n) && (n <? 127)) || ((161 <=? n) && negb (n =? 173)))%nat.

Definition hex_digit (n : nat) : ascii :=
  ascii_of_nat (if (n <? 10)%nat then 48 + n else 87 + n).

Definition repr_char (quote c : ascii) : string :=
  if Ascii.eqb c quote || Ascii.eqb c backslash then String backslash (String c "")
  else if Ascii.eqb c tab then String backslash "t"
  else if Ascii.eqb c nl then String backslash "n"
  else if Ascii.eqb c cr then String backslash "r"
  else if isprintable c then String c ""
  else String backslash
         (String "x" (String (hex_digit (nat_of_ascii c / 16))
                        (String (hex_digit (nat_of_ascii c mod 16)) ""))).

Fixpoint repr_body (quote : ascii) (s : string) : string :=
  match s with
  | "" => ""
  | String c s' => repr_char quote c +:+ repr_body quote s'
  end.

Definition repr (s : string) : string :=
  let quote := if has_char squote s && negb (has_char dquote s) then dquote else squote in
  String quote (repr_body quote s +:+ String quote "").

(** [str(e)]; the text of a [KeyError] is the [repr] of its key. *)
Definition str_exn (e : exn) : string :=
  match e with
  | ValueError m | TypeError m | OverflowError m | FileNotFoundError m
  | FileExistsError m | NotADirectoryError m | IsADirectoryError m
  | re_error m | BrokenProcessPool m | RuntimeError m => m
  | KeyError k => repr k
  end.

Inductive outcome (A : Type) : Type :=
| Return (a : A)
| Raise (e : exn).
Arguments Return {A} a.
Arguments Raise {A} e.

(** Sequencing: an exception raised by the first step ends the block. *)
#[global] Instance outcome_ret : MRet outcome := λ A a, Return a.
#[global] Instance outcome_bind : MBind outcome := λ A B f x,
  match x with
  | Return a => f a
  | Raise e => Raise e
  end.

(** The values found in the dictionaries exchanged with the runner. *)
Inductive pyval : Type :=
| PyNone
| PyBool (b : bool)
| PyInt (z : Z)
| PyStr (s : string).

(** Truth value of an object in an [if]. *)
Definition truthy (v : pyval) : bool :=
  match v with
  | PyNone => false
  | PyBool b => b
  | PyInt z => negb (z =? 0)%Z
  | PyStr s => negb (String.eqb s "")
  end.

(** [d.get(key)] and [d.get(key, default)]. *)
Definition dict_get (d : gmap string pyval) (key : string) (default : pyval) : pyval :=
  match d !! key with
  | Some v => v
  | None => default
  end.

(** ** Characters and strings *)

Definition isspace (c : ascii) : bool :=
  let n := nat_of_ascii c in
  (((9 <=? n) && (n <=? 13)) || ((28 <=? n) && (n <=? 32))
   || (n =? 133) || (n =? 160))%nat.

Definition isdigit (c : ascii) : bool :=
  let n := nat_of_ascii c in ((48 <=? n) && (n <=? 57))%nat.

Definition lower (c : ascii) : ascii :=
  let n := nat_of_ascii c in
  if ((65 <=? n) && (n <=? 90))%nat then ascii_of_nat (n + 32) else c.

(** [s.startswith(p)] *)
Fixpoint startswith (p s : string) : bool :=
  match p, s with
  | "", _ => true
  | String a p', String b s' => Ascii.eqb a b && startswith p' s'
  | String _ _, "" => false
  end.

(** [s.strip() == ''] : every character of [s] is white space. *)
Fixpoint strip_is_empty (s : string) : bool :=
  match s with
  | "" => true
  | String c s' => isspace c && strip_is_empty s'
  end.

(** [s.split(sep)] for a one-character separator. *)
Fixpoint str_split (sep : ascii) (s : string) : list string :=
  match s with
  | "" => [""]
  | String c s' =>
      if Ascii.eqb c sep then "" :: str_split sep s'
      else match str_split sep s' with
           | l :: ls => String c l :: ls
           | [] => [String c ""]
           end
  end.

(** [sep.join(parts)] for a one-character separator. *)
Fixpoint str_join (sep : ascii) (parts : list string) : string :=
  match parts with
  | [] => ""
  | [l] => l
  | l :: ls => l +:+ String sep (str_join sep ls)
  end.

(** [l.insert(i, x)]: an index past the end appends. *)
Definition list_insert_at {A} (i : nat) (x : A) (l : list A) : list A :=
  take i l ++ x :: drop i l.

(** The slices [s[:n]] and [s[n:]]. *)
Fixpoint string_take (n : nat) (s : string) : string :=
  match n, s with
  | S n', String c s' => String c (string_take n' s')
  | _, _ => ""
  end.

Fixpoint string_drop (n : nat) (s : string) : string :=
  match n, s with
  | S n', String _ s' => string_drop n' s'
  | _, _ => s
  end.

(** [s.rfind(c)]: the index of the last [c] in [s]. *)
Fixpoint rfind (c : ascii) (s : string) : option nat :=
  match s with
  | "" => None
  | String a s' =>
      match rfind c s' with
      | Some i => Some (S i)
      | None => if Ascii.eqb a c then Some 0 else None
      end
  end.

(** ** Regular expressions: the fragment of [re] the module uses

    Repetition is only ever applied to a single-character class in the
    source patterns, and each pattern has at most one capture group.  The
    matcher is a backtracking one with Python's priorities: greedy
    operators try the longest run first, the lazy star the shortest. *)
Module re.

Inductive charset : Type :=
| Lit (c : ascii)            (* a literal character *)
| Space                      (* \s *)
| Digit                      (* \d *)
| Dot                        (* .  *)
| OneOf (cs : list ascii).   (* [...] *)

Inductive regex : Type :=
| Eps
| Chr (c : charset)
| Opt (c : charset)          (* c?  *)
| Star (c : charset)         (* c*  *)
| Plus (c : charset)         (* c+  *)
| LazyStar (c : charset)     (* c*? *)
| Seq (r1 r2 : regex)
| Group (r : regex).         (* ( r ) *)

(** The characters of [s], one after the other. *)
Fixpoint lit (s : string) : regex :=
  match s with
  | "" => Eps
  | String c "" => Chr (Lit c)
  | String c s' => Seq (Chr (Lit c)) (lit s')
  end.

Definition same_char (ignorecase : bool) (a b : ascii) : bool :=
  if ignorecase then Ascii.eqb (lower a) (lower b) else Ascii.eqb a b.

Definition accepts (ignorecase : bool) (cs : charset) (c : ascii) : bool :=
  match cs with
  | Lit a => same_char ignorecase a c
  | Space => isspace c
  | Digit => isdigit c
  | Dot => negb (Ascii.eqb c nl)
  | OneOf l => existsb (same_char ignorecase c) l
  end.

Section Matcher.
Context {R : Type} (ignorecase : bool).

Fixpoint greedy_star (cs : charset) (k : string → option R) (s : string)
  : option R :=
  match s with
  | String c s' =>
      if accepts ignorecase cs c then
        match greedy_star cs k s' with
        | Some r => Some r
        | None => k s
        end
      else k s
  | "" => k s
  end.

Fixpoint lazy_star (cs : charset) (k : string → option R) (s : string)
  : option R :=
  match k s with
  | Some r => Some r
  | None =>
      match s with
      | String c s' => if accepts ignorecase cs c then lazy_star cs k s' else None
      | "" => None
      end
  end.

(** [re_match r s g k]: match [r] at the front of [s]; [g] is the text
    captured so far and [k] continues with what is left of [s]. *)
Fixpoint re_match (r : regex) (s : string) (g : option string)
    (k : string → option string → option R) : option R :=
  match r with
  | Eps => k s g
  | Chr cs =>
      match s with
      | String c s' => if accepts ignorecase cs c then k s' g else None
      | "" => None
      end
  | Opt cs =>
      match s with
      | String c s' =>
          if accepts ignorecase cs c then
            match k s' g with
            | Some r => Some r
            | None => k s g
            end
          else k s g
      | "" => k s g
      end
  | Star cs => greedy_star cs (λ s', k s' g) s
  | Plus cs =>
      match s with
      | String c s' =>
          if accepts ignorecase cs c then greedy_star cs (λ s'', k s'' g) s'
          else None
      | "" => None
      end
  | LazyStar cs => lazy_star cs (λ s', k s' g) s
  | Seq r1 r2 => re_match r1 s g (λ s' g', re_match r2 s' g' k)
  | Group r1 =>
      re_match r1 s g
        (λ s' _, k s' (Some (string_take (String.length s - String.length s') s)))
  end.
End Matcher.

(** A match object: [m.start()], [m.end()] and [m.group(1)]. *)
Record Match : Type := { m_start : nat; m_end : nat; group1 : option string }.

(** Match at the front of [s], which begins at offset [pos] of the text. *)
Definition match_at (ignorecase : bool) (r : regex) (s : string) (pos : nat)
  : option Match :=
  re_match ignorecase r s None
    (λ rest g, Some {| m_start := pos;
                       m_end := pos + (String.length s - String.length rest);
                       group1 := g |}).

Fixpoint search_from (ignorecase : bool) (r : regex) (s : string) (pos : nat)
  : option Match :=
  match match_at ignorecase r s pos with
  | Some m => Some m
  | None =>
      match s with
      | String _ s' => search_from ignorecase r s' (S pos)
      | "" => None
      end
  end.

(** [re.search(pattern, text, flags)] on a [str]: the leftmost match. *)
Definition search (ignorecase : bool) (r : regex) (text : string) : option Match :=
  search_from ignorecase r text 0.

(** [re.search] on any object: only a [str] can be searched. *)
Definition search_obj (ignorecase : bool) (r : regex) (text : pyval)
  : outcome (option Match) :=
  match text with
  | PyStr s => Return (search ignorecase r s)
  | _ => Raise (TypeError "expected string or bytes-like object")
  end.

(** [re.sub]: every leftmost, non-overlapping match is replaced by what
    [repl] makes of the matched text.  Each step uses up a character of
    [s], so [fuel] never runs out when it starts above the length. *)
Fixpoint sub_from (fuel : nat) (r : regex) (repl : string → string) (s : string)
  : string :=
  match fuel with
  | O => s
  | S fuel' =>
      let skip :=
        match s with
        | String c s' => String c (sub_from fuel' r repl s')
        | "" => ""
        end in
      match match_at false r s 0 with
      | Some m =>
          match m_end m with
          | O => repl "" +:+ skip
          | S _ as n => repl (string_take n s) +:+ sub_from fuel' r repl (string_drop n s)
          end
      | None => skip
      end
  end.

Definition sub_with (r : regex) (repl : string → string) (s : string) : string :=
  sub_from (S (String.length s)) r repl s.

End re.
Import re.

Infix ";;;" := Seq (at level 61, left associativity).

(** ** [float(...)] on the text of a capture group

    The decimal forms [[+-]digits[.digits]] are read exactly; the other
    spellings Python accepts (exponents, [inf], [nan], underscores) cannot
    come out of the capture groups below and are treated as not a number. *)

Definition digit_value (c : ascii) : Z := Z.of_nat (nat_of_ascii c - 48).

(** Reads a run of digits: the number read so far, how many digits were
    read, and what follows the run. *)
Fixpoint read_digits (s : string) (acc : Z) (n : nat) : Z * nat * string :=
  match s with
  | String c s' =>
      if isdigit c then read_digits s' (10 * acc + digit_value c)%Z (S n)
      else (acc, n, s)
  | "" => (acc, n, s)
  end.

Definition read_sign (s : string) : bool * string :=
  match s with
  | String c s' =>
      if Ascii.eqb c "-" then (true, s')
      else if Ascii.eqb c "+" then (false, s')
      else (false, s)
  | "" => (false, s)
  end.

Definition parse_decimal (s : string) : option Q :=
  let '(negative, s1) := read_sign s in
  let '(int_part, n_int, s2) := read_digits s1 0%Z 0 in
  let '(mantissa, n_frac, s3) :=
    match s2 with
    | String c s2' =>
        if Ascii.eqb c "." then read_digits s2' int_part 0 else (int_part, 0, s2)
    | "" => (int_part, 0, s2)
    end in
  if negb (String.eqb s3 "") then None
  else if (n_int + n_frac =? 0)%nat then None
  else
    let q := Qmake mantissa (Pos.pow 10 (Pos.of_nat n_frac)) in
    let q := if (n_frac =? 0)%nat then Qmake mantissa 1 else q in
    Some (Qred (if negative then Qopp q else q)).

(** [float] reads a decimal of any length; one at or beyond the midpoint
    between the largest finite double, [2^1024 - 2^971], and [2^1024] is
    the infinity of its sign. *)
Definition is_infinite (v : Q) : bool :=
  Qle_bool (inject_Z (2 ^ 1024 - 2 ^ 970)%Z) (Qabs v).

Definition float_ (x : option string) : outcome Q :=
  match x with
  | None => Raise (TypeError "float() argument must be a string or a real number, not 'NoneType'")
  | Some s =>
      match parse_decimal s with
      | Some q => Return q
      | None => Raise (ValueError ("could not convert string to float: " +:+ repr s))
      end
  end.

(** ** [MultiAssetTester._parse_backtest_output] *)

(** A signed number: [+-]? \d+ \.? \d* . *)
Definition signed_number : regex :=
  Opt (OneOf ["+"; "-"]%char) ;;; Plus Digit ;;; Opt (Lit ".") ;;; Star Digit.

(** An unsigned number: \d+ \.? \d* . *)
Definition unsigned_number : regex :=
  Plus Digit ;;; Opt (Lit ".") ;;; Star Digit.

(** The [patterns] dictionary, in the order of its keys.  Each pattern is
    preceded by its source text, written with a blank between its pieces
    (a quoted piece is literal text with the blanks it shows). *)
Definition patterns : list (string * list regex) :=
  [ ("return",
      [ (* Return \s* \[ % \] \s* ( [+-]? \d+ \.? \d* ) *)
        lit "Return" ;;; Star Space ;;; lit "[%]" ;;; Star Space ;;; Group signed_number;
        (* 'Total Return' .*? ( [+-]? \d+ \.? \d* ) % *)
        lit "Total Return" ;;; LazyStar Dot ;;; Group signed_number ;;; lit "%";
        (* Return .*? ( [+-]? \d+ \.? \d* ) *)
        lit "Return" ;;; LazyStar Dot ;;; Group signed_number ]);
    ("sharpe",
      [ (* 'Sharpe Ratio' \s* ( [+-]? \d+ \.? \d* ) *)
        lit "Sharpe Ratio" ;;; Star Space ;;; Group signed_number;
        (* Sharpe \s* ( [+-]? \d+ \.? \d* ) *)
        lit "Sharpe" ;;; Star Space ;;; Group signed_number ]);
    ("max_drawdown",
      [ (* Max \.? \s* Drawdown \s* \[ % \] \s* ( [+-]? \d+ \.? \d* ) *)
        lit "Max" ;;; Opt (Lit ".") ;;; Star Space ;;; lit "Drawdown" ;;; Star Space
          ;;; lit "[%]" ;;; Star Space ;;; Group signed_number;
        (* Max \.? \s* DD .*? ( [+-]? \d+ \.? \d* ) *)
        lit "Max" ;;; Opt (Lit ".") ;;; Star Space ;;; lit "DD" ;;; LazyStar Dot
          ;;; Group signed_number ]);
    ("trades",
      [ (* '# Trades' \s* ( \d+ ) *)
        lit "# Trades" ;;; Star Space ;;; Group (Plus Digit);
        (* Trades \s* ( \d+ ) *)
        lit "Trades" ;;; Star Space ;;; Group (Plus Digit);
        (* 'Number of trades' .*? ( \d+ ) *)
        lit "Number of trades" ;;; LazyStar Dot ;;; Group (Plus Digit) ]);
    ("win_rate",
      [ (* 'Win Rate' \s* \[ % \] \s* ( \d+ \.? \d* ) *)
        lit "Win Rate" ;;; Star Space ;;; lit "[%]" ;;; Star Space ;;; Group unsigned_number;
        (* 'Win Rate' .*? ( \d+ \.? \d* ) % *)
        lit "Win Rate" ;;; LazyStar Dot ;;; Group unsigned_number ;;; lit "%" ]) ].

(** The inner loop, over the patterns of one metric: the first pattern that
    matches and whose group converts stores the value and leaves the loop;
    a failed conversion is swallowed and the next pattern is tried. *)
Fixpoint for_pattern (output : pyval) (metric_name : string)
    (pattern_list : list regex) (metrics : gmap string Q)
  : outcome (gmap string Q) :=
  match pattern_list with
  | [] => Return metrics
  | pattern :: pattern_list' =>
      m ← search_obj true pattern output;
      match m with
      | Some mt =>
          match float_ (group1 mt) with
          | Return v => Return (<[metric_name := v]> metrics)
          | Raise _ => for_pattern output metric_name pattern_list' metrics
          end
      | None => for_pattern output metric_name pattern_list' metrics
      end
  end.

(** The outer loop, over the items of [patterns]. *)
Fixpoint for_metric (output : pyval) (items : list (string * list regex))
    (metrics : gmap string Q) : outcome (gmap string Q) :=
  match items with
  | [] => Return metrics
  | (metric_name, pattern_list) :: items' =>
      metrics' ← for_pattern output metric_name pattern_list metrics;
      for_metric output items' metrics'
  end.

Definition _parse_backtest_output (output : pyval) : outcome (gmap string Q) :=
  for_metric output patterns ∅.

(** ** [pathlib] on POSIX paths

    A path is its list of components; empty components and [.] are dropped
    when the path is built, as [pathlib] does.  The root of exactly two
    leading slashes is not told apart from the root of one. *)

Record PurePath : Type := { absolute : bool; parts : list string }.

Definition is_component (c : string) : bool :=
  negb (String.eqb c "") && negb (String.eqb c ".").

Definition Path (s : string) : PurePath :=
  {| absolute := startswith "/" s;
     parts := filter (λ c, is_component c = true) (str_split "/" s) |}.

(** [str(p)] *)
Definition Path_str (p : PurePath) : string :=
  match absolute p, parts p with
  | false, [] => "."
  | a, ps => (if a then "/" else "") +:+ str_join "/" ps
  end.

(** [p / s] *)
Definition Path_div (p : PurePath) (s : string) : PurePath :=
  let q := Path s in
  if absolute q then q
  else {| absolute := absolute p; parts := parts p ++ parts q |}.

(** [p.name] *)
Definition Path_name (p : PurePath) : string := List.last (parts p) "".

(** [p.suffix] and [p.stem]: split at the last dot of the name, unless
    that dot is its first or its last character. *)
Definition suffix_index (name : string) : option nat :=
  match rfind "." name with
  | Some i => if ((0 <? i) && (i <? String.length name - 1))%nat then Some i else None
  | None => None
  end.

Definition Path_suffix (p : PurePath) : string :=
  match suffix_index (Path_name p) with
  | Some i => string_drop i (Path_name p)
  | None => ""
  end.

Definition Path_stem (p : PurePath) : string :=
  match suffix_index (Path_name p) with
  | Some i => string_take i (Path_name p)
  | None => Path_name p
  end.

(** [p.parent] *)
Definition Path_parent (p : PurePath) : PurePath :=
  {| absolute := absolute p; parts := removelast (parts p) |}.

(** ** The file system

    The regular files, by the text of their path.  [open] and [mkdir] fail
    as the operating system makes them fail on such a world. *)

(** [p] is [q] or a directory on the way to [q]. *)
Definition leads_to (p q : PurePath) : bool :=
  Bool.eqb (absolute p) (absolute q) && bool_decide (parts p `prefix_of` parts q).

(** The directories on the way to [p], the root or the current directory
    first. *)
Definition ancestors (p : PurePath) : list PurePath :=
  map (λ n, {| absolute := absolute p; parts := take n (parts p) |})
      (seq 0 (length (parts p))).

Definition is_file (fs : gmap string string) (p : PurePath) : bool :=
  bool_decide (is_Some (fs !! Path_str p)).

(** A file lies below [p]; the root and the current directory are always
    there. *)
Definition is_dir (fs : gmap string string) (p : PurePath) : bool :=
  match parts p with
  | [] => true
  | _ => existsb (λ file, leads_to p (Path_parent (Path file.1))) (map_to_list fs)
  end.

(** A file stands where a directory on the way to [p] should be. *)
Definition file_in_the_way (fs : gmap string string) (p : PurePath) : bool :=
  existsb (is_file fs) (ancestors p).

(** [p.mkdir(parents=True, exist_ok=True)]: nothing is written, the
    directory [p] and those on the way to it are there afterwards. *)
Definition mkdir (fs : gmap string string) (p : PurePath) : outcome unit :=
  if file_in_the_way fs p then
    Raise (NotADirectoryError ("[Errno 20] Not a directory: " +:+ repr (Path_str p)))
  else if is_file fs p then
    Raise (FileExistsError ("[Errno 17] File exists: " +:+ repr (Path_str p)))
  else Return ().

(** Reading in text mode turns the line ends [\r\n] and [\r] into [\n]. *)
Fixpoint universal_newlines (s : string) : string :=
  match s with
  | "" => ""
  | String c s' =>
      if Ascii.eqb c cr then
        match s' with
        | String c' s'' =>
            if Ascii.eqb c' nl then String nl (universal_newlines s'')
            else String nl (universal_newlines s')
        | "" => String nl ""
        end
      else String c (universal_newlines s')
  end.

(** [open(p, 'r').read()]; [made] is the directory [mkdir] made before. *)
Definition open_r (fs : gmap string string) (made p : PurePath) : outcome string :=
  match fs !! Path_str p with
  | Some content => Return (universal_newlines content)
  | None =>
      if file_in_the_way fs p then
        Raise (NotADirectoryError ("[Errno 20] Not a directory: " +:+ repr (Path_str p)))
      else if is_dir fs p || leads_to p made then
        Raise (IsADirectoryError ("[Errno 21] Is a directory: " +:+ repr (Path_str p)))
      else
        Raise (FileNotFoundError
                 ("[Errno 2] No such file or directory: " +:+ repr (Path_str p)))
  end.

(** [open(p, 'w').write(content)]: the file is made or replaced when the
    directory it goes to is there. *)
Definition open_w (fs : gmap string string) (made p : PurePath) (content : string)
  : outcome (gmap string string) :=
  if file_in_the_way fs p then
    Raise (NotADirectoryError ("[Errno 20] Not a directory: " +:+ repr (Path_str p)))
  else if is_dir fs p || leads_to p made then
    Raise (IsADirectoryError ("[Errno 21] Is a directory: " +:+ repr (Path_str p)))
  else if is_dir fs (Path_parent p) || leads_to (Path_parent p) made then
    Return (<[Path_str p := content]> fs)
  else
    Raise (FileNotFoundError
             ("[Errno 2] No such file or directory: " +:+ repr (Path_str p))).

(** ** The tester and its results *)

(** A result dictionary.  [stdout] and [stderr] are [None] while the key is
    absent from the dictionary. *)
Record TestResult : Type := {
  strategy : string;
  asset : string;
  data_path : string;
  status : string;
  error : pyval;
  metrics : gmap string Q;
  execution_time : Q;
  timestamp : string;
  stdout : option pyval;
  stderr : option pyval
}.

Definition set_status (v : string) (r : TestResult) : TestResult :=
  {| strategy := strategy r; asset := asset r; data_path := data_path r;
     status := v; error := error r; metrics := metrics r;
     execution_time := execution_time r; timestamp := timestamp r;
     stdout := stdout r; stderr := stderr r |}.

Definition set_error (v : pyval) (r : TestResult) : TestResult :=
  {| strategy := strategy r; asset := asset r; data_path := data_path r;
     status := status r; error := v; metrics := metrics r;
     execution_time := execution_time r; timestamp := timestamp r;
     stdout := stdout r; stderr := stderr r |}.

Definition set_metrics (v : gmap string Q) (r : TestResult) : TestResult :=
  {| strategy := strategy r; asset := asset r; data_path := data_path r;
     status := status r; error := error r; metrics := v;
     execution_time := execution_time r; timestamp := timestamp r;
     stdout := stdout r; stderr := stderr r |}.

Definition set_execution_time (v : Q) (r : TestResult) : TestResult :=
  {| strategy := strategy r; asset := asset r; data_path := data_path r;
     status := status r; error := error r; metrics := metrics r;
     execution_time := v; timestamp := timestamp r;
     stdout := stdout r; stderr := stderr r |}.

Definition set_stdout (v : pyval) (r : TestResult) : TestResult :=
  {| strategy := strategy r; asset := asset r; data_path := data_path r;
     status := status r; error := error r; metrics := metrics r;
     execution_time := execution_time r; timestamp := timestamp r;
     stdout := Some v; stderr := stderr r |}.

Definition set_stderr (v : pyval) (r : TestResult) : TestResult :=
  {| strategy := strategy r; asset := asset r; data_path := data_path r;
     status := status r; error := error r; metrics := metrics r;
     execution_time := execution_time r; timestamp := timestamp r;
     stdout := stdout r; stderr := Some v |}.

(** The attributes of a [MultiAssetTester]; [available_assets] keeps the
    order of the dictionary's items. *)
Record MultiAssetTester : Type := {
  data_dir : string;
  max_workers : nat;
  timeout : Z;
  conda_env : string;
  results : list TestResult;
  available_assets : list (string * string)
}.

(** [__init__]: [discovered] is what [_discover_assets] found in the data
    directory and [cpu_count] the value of [mp.cpu_count()]. *)
Definition __init__ (data_dir : option string) (max_workers : option nat)
    (timeout : Z) (conda_env : string)
    (module_dir : string) (cpu_count : nat) (discovered : list (string * string))
  : MultiAssetTester :=
  {| data_dir :=
       match data_dir with
       | Some d => Path_str (Path d)
       | None => Path_str (Path_div (Path_div (Path module_dir) "data") "ohlcv")
       end;
     max_workers :=
       match max_workers with
       | Some (S n) => S n
       | _ => cpu_count
       end;
     timeout := timeout;
     conda_env := conda_env;
     results := [];
     available_assets := discovered |}.

(** What a call of the runner [run_backtest_in_conda] does: it returns a
    dictionary or raises, after [elapsed] seconds. *)
Inductive runner_reply : Type :=
| RunnerReturns (backtest_result : gmap string pyval)
| RunnerRaises (e : exn).

Record runner_call : Type := { reply : runner_reply; elapsed : Q }.

(** What [future.result()] does for a submitted task. *)
Inductive future_outcome : Type :=
| FutureResult (r : TestResult)
| FutureException (e : exn).

(** The summary [print_summary] prints. *)
Record Ranking : Type := {
  ranked : list TestResult;
  best : TestResult;
  worst : TestResult;
  best_sharpe : Q;
  best_return : Q;
  worst_sharpe : Q;
  worst_return : Q;
  avg_sharpe : Q;
  avg_return : Q
}.

Inductive Summary : Type :=
| NoResults
| Report (total successful failed : nat) (ranking : option Ranking).

(** The header lines the injection skips. *)
Definition is_header_line (line : string) : bool :=
  startswith "import " line || startswith "from " line
  || strip_is_empty line || startswith "#" line.

(** The loop that finds the end of the import section: [i] is the index of
    the head of [lines], and the loop stops at the first other line. *)
Fixpoint find_import_end (lines : list string) (i import_end_idx : nat) : nat :=
  match lines with
  | [] => import_end_idx
  | line :: lines' =>
      if is_header_line line then find_import_end lines' (S i) (i + 1)
      else import_end_idx
  end.

Definition quote : charset := OneOf [dquote; squote].

(** [data_path = "<data_file_path>"] *)
Definition data_path_declaration (data_file_path : string) : string :=
  "data_path = " +:+ String dquote data_file_path +:+ String dquote "".

(** The list [patterns_to_replace]; the source patterns are, with a blank
    between their pieces and Q for the class of the two quote characters:
    - data_path \s* = \s* Q .*? Q
    - pd \. read_csv \( Q .*? Q \)
    - data \s* = \s* pd \. read_csv \( Q .*? Q \) *)
Definition patterns_to_replace (data_file_path : string) : list (regex * string) :=
  [ (lit "data_path" ;;; Star Space ;;; lit "=" ;;; Star Space
       ;;; Chr quote ;;; LazyStar Dot ;;; Chr quote,
     data_path_declaration data_file_path);
    (lit "pd.read_csv(" ;;; Chr quote ;;; LazyStar Dot ;;; Chr quote ;;; lit ")",
     "pd.read_csv(" +:+ String dquote data_file_path +:+ String dquote ")");
    (lit "data" ;;; Star Space ;;; lit "=" ;;; Star Space ;;; lit "pd.read_csv("
       ;;; Chr quote ;;; LazyStar Dot ;;; Chr quote ;;; lit ")",
     "data = pd.read_csv(" +:+ String dquote data_file_path +:+ String dquote ")") ].

(** The three lines the injection inserts. *)
Definition injected_lines (asset data_file_path : string) : list string :=
  [ String nl "# Data path for " +:+ asset +:+ " (injected by Multi-Asset Tester)";
    data_path_declaration data_file_path;
    "" ].

Definition inject (lines : list string) (asset data_file_path : string) : list string :=
  let import_end_idx := find_import_end lines 0 0 in
  let lines :=
    list_insert_at import_end_idx
      (String nl "# Data path for " +:+ asset +:+ " (injected by Multi-Asset Tester)")
      lines in
  let lines :=
    list_insert_at (import_end_idx + 1) (data_path_declaration data_file_path) lines in
  list_insert_at (import_end_idx + 2) "" lines.

Section Tester.

(** The world around the tester.
    - [parse_template] is what [re.sub] makes of a replacement template: a
      function from the matched text to its replacement, or [re.error]
      for a template with a bad escape.
    - [run_backtest_in_conda] is the runner of [agents.backtest_runner]:
      it sees the files, the path of the variant and the environment.
    - [now] is [datetime.now().isoformat()].
    - [mkdtemp] is [tempfile.mkdtemp] and [as_completed] the order in which
      the futures complete; [worker_crash] tells for which tasks
      [future.result()] raises instead of returning what
      [test_strategy_on_asset] returned. *)
Variable parse_template : string → outcome (string → string).
Variable run_backtest_in_conda : gmap string string → string → string → runner_call.
Variable now : string.
Variable mkdtemp : string → string.
Variable as_completed :
  list (string * string * string * string) → list (string * string * string * string).
Variable worker_crash : string * string * string * string → option exn.

(** [re.sub(pattern, replacement, code)] *)
Definition re_sub (pattern : regex) (replacement code : string) : outcome string :=
  repl ← parse_template replacement;
  Return (sub_with pattern repl code).

(** The loop over [patterns_to_replace]. *)
Fixpoint replace_all (pats : list (regex * string)) (code : string)
    (data_path_replaced : bool) : outcome (string * bool) :=
  match pats with
  | [] => Return (code, data_path_replaced)
  | (pattern, replacement) :: pats' =>
      match search false pattern code with
      | Some _ =>
          code' ← re_sub pattern replacement code;
          replace_all pats' code' true
      | None => replace_all pats' code data_path_replaced
      end
  end.

(** The text written to the variant file. *)
Definition variant_code (code asset data_file_path : string) : outcome string :=
  replaced ← replace_all (patterns_to_replace data_file_path) code false;
  let '(code, data_path_replaced) := replaced in
  if (data_path_replaced : bool) then Return code
  else Return (str_join nl (inject (str_split nl code) asset data_file_path)).

Definition new_filename (strategy_path asset : string) : string :=
  Path_stem (Path strategy_path) +:+ "_" +:+ asset +:+ ".py".

Definition new_path (temp_dir strategy_path asset : string) : PurePath :=
  Path_div (Path temp_dir) (new_filename strategy_path asset).

(** [_create_strategy_variant]: the result is the path of the variant and
    the files after the call. *)
Definition _create_strategy_variant (fs : gmap string string)
    (strategy_path asset data_file_path temp_dir : string)
  : outcome (string * gmap string string) :=
  let strategy_file := Path strategy_path in
  let output_dir := Path temp_dir in
  _ ← mkdir fs output_dir;
  let new_path := new_path temp_dir strategy_path asset in
  code ← open_r fs output_dir strategy_file;
  code ← variant_code code asset data_file_path;
  fs' ← open_w fs output_dir new_path code;
  Return (Path_str new_path, fs').

(** The [except Exception] branch of [test_strategy_on_asset]. *)
Definition on_exception (e : exn) (seconds : Q) (result : TestResult) : TestResult :=
  set_execution_time seconds
    (set_error (PyStr (str_exn e)) (set_status "error" result)).

(** [test_strategy_on_asset] *)
Definition test_strategy_on_asset (self : MultiAssetTester) (fs : gmap string string)
    (strategy_path asset data_path temp_dir : string) : TestResult :=
  let strategy_name := Path_stem (Path strategy_path) in
  let result :=
    {| strategy := strategy_name; asset := asset; data_path := data_path;
       status := "unknown"; error := PyNone; metrics := ∅;
       execution_time := 0; timestamp := now;
       stdout := None; stderr := None |} in
  match _create_strategy_variant fs strategy_path asset data_path temp_dir with
  | Raise e => on_exception e 0 result
  | Return (modified_strategy, fs') =>
      let call := run_backtest_in_conda fs' modified_strategy (conda_env self) in
      match reply call with
      | RunnerRaises e => on_exception e (elapsed call) result
      | RunnerReturns backtest_result =>
          let result := set_execution_time (elapsed call) result in
          if truthy (dict_get backtest_result "success" PyNone) then
            let result := set_status "success" result in
            let result := set_stdout (dict_get backtest_result "stdout" (PyStr "")) result in
            let result := set_stderr (dict_get backtest_result "stderr" (PyStr "")) result in
            match _parse_backtest_output (dict_get backtest_result "stdout" (PyStr "")) with
            | Raise e => on_exception e (elapsed call) result
            | Return metrics => set_metrics metrics result
            end
          else
            let result := set_status "failed" result in
            let result :=
              set_error (dict_get backtest_result "error" (PyStr "Unknown error")) result in
            set_stderr (dict_get backtest_result "stderr" (PyStr "")) result
      end
  end.

(** [future.result()] for a task of the pool. *)
Definition future_result (self : MultiAssetTester) (fs : gmap string string)
    (task : string * string * string * string) : future_outcome :=
  match worker_crash task with
  | Some e => FutureException e
  | None =>
      let '(strategy_path, asset, data_path, temp_dir) := task in
      FutureResult (test_strategy_on_asset self fs strategy_path asset data_path temp_dir)
  end.

(** The loop over [as_completed(future_to_task)]. *)
Fixpoint collect (self : MultiAssetTester) (fs : gmap string string)
    (futures : list (string * string * string * string))
    (results : list TestResult) (completed : nat) : list TestResult * nat :=
  match futures with
  | [] => (results, completed)
  | task :: futures' =>
      match future_result self fs task with
      | FutureResult result => collect self fs futures' (results ++ [result]) (completed + 1)
      | FutureException e => collect self fs futures' results (completed + 1)
      end
  end.

(** [test_strategy_on_all_assets]: the returned list, which is also stored
    in [self.results]. *)
Definition test_strategy_on_all_assets (self : MultiAssetTester)
    (fs : gmap string string) (strategy_path : string) : list TestResult :=
  match available_assets self with
  | [] => []
  | _ =>
      let strategy_name := Path_stem (Path strategy_path) in
      let temp_dir := mkdtemp ("moon_dev_multi_asset_" +:+ strategy_name +:+ "_") in
      let tasks :=
        map (λ '(asset, data_path), (strategy_path, asset, data_path, temp_dir))
            (available_assets self) in
      fst (collect self fs (as_completed tasks) [] 0)
  end.

End Tester.

(** ** [MultiAssetTester.print_summary] *)

(** [d[key]] on a metrics dictionary. *)
Definition getitem (d : gmap string Q) (key : string) : outcome Q :=
  match d !! key with
  | Some v => Return v
  | None => Raise (KeyError key)
  end.

(** The key the ranking sorts by: [x['metrics'].get('sharpe', -999)]. *)
Definition sort_key (x : TestResult) : Q := default (-999)%Q (metrics x !! "sharpe").

(** [list.sort(key=sort_key, reverse=True)]: descending and stable, entries
    with equal keys keep their order. *)
Fixpoint insert_desc (x : TestResult) (l : list TestResult) : list TestResult :=
  match l with
  | [] => [x]
  | y :: l' =>
      if Qle_bool (sort_key y) (sort_key x) then x :: y :: l'
      else y :: insert_desc x l'
  end.

Definition sort_desc (l : list TestResult) : list TestResult :=
  foldr insert_desc [] l.

(** [sum(r['metrics'][key] for r in l)], from the left and starting at 0. *)
Fixpoint sum_metric (key : string) (l : list TestResult) (acc : Q) : outcome Q :=
  match l with
  | [] => Return acc
  | r :: l' =>
      v ← getitem (metrics r) key;
      sum_metric key l' (acc + v)%Q
  end.

(** [int(x)] on a float: the integer towards zero, and none for an
    infinity. *)
Definition int_of_float (v : Q) : outcome Z :=
  if is_infinite v then Raise (OverflowError "cannot convert float infinity to integer")
  else Return (Z.quot (Qnum v) (Z.pos (Qden v))).

(** The rows of the ranking table.  Formatting the Sharpe ratio, the
    return and the win rate of a row cannot fail; [int(trades)], applied
    when the result has that metric, can.  The result is the column of the
    trades, [None] for a row that shows [N/A]. *)
Fixpoint ranking_rows (sorted : list TestResult) : outcome (list (option Z)) :=
  match sorted with
  | [] => Return []
  | result :: sorted' =>
      trades_str ←
        match metrics result !! "trades" with
        | Some trades => n ← int_of_float trades; Return (Some n)
        | None => Return None
        end;
      rows ← ranking_rows sorted';
      Return (trades_str :: rows)
  end.

Definition successful_with_metrics (results : list TestResult) : list TestResult :=
  filter (λ r, is_Some (metrics r !! "sharpe"))
         (filter (λ r, status r = "success") results).

(** [print_summary] on [self.results]: what it prints, or the exception
    that ends it. *)
Definition print_summary (results : list TestResult) : outcome Summary :=
  match results with
  | [] => Return NoResults
  | _ =>
      let successful := filter (λ r, status r = "success") results in
      let failed := filter (λ r, status r ∈ ["failed"; "error"]) results in
      match successful_with_metrics results with
      | [] => Return (Report (length results) (length successful) (length failed) None)
      | first :: _ =>
          let sorted := sort_desc (successful_with_metrics results) in
          _ ← ranking_rows sorted;
          let best := List.hd first sorted in
          let worst := List.last sorted first in
          bs ← getitem (metrics best) "sharpe";
          br ← getitem (metrics best) "return";
          ws ← getitem (metrics worst) "sharpe";
          wr ← getitem (metrics worst) "return";
          total_sharpe ← sum_metric "sharpe" sorted 0%Q;
          total_return ← sum_metric "return" sorted 0%Q;
          let n := inject_Z (Z.of_nat (length sorted)) in
          Return (Report (length results) (length successful) (length failed)
                    (Some {| ranked := sorted; best := best; worst := worst;
                             best_sharpe := bs; best_return := br;
                             worst_sharpe := ws; worst_return := wr;
                             avg_sharpe := (total_sharpe / n)%Q;
                             avg_return := (total_return / n)%Q |}))
      end
  end.

(** ** Definitions used to state the properties *)

(** What one pattern yields on a text: the number in its group, when the
    pattern is found and the group reads as a number. *)
Definition pattern_value (text : string) (pattern : regex) : option Q :=
  match search true pattern text with
  | Some mt =>
      match float_ (group1 mt) with
      | Return v => Some v
      | Raise _ => None
      end
  | None => None
  end.

(** The extractor as the specification words it: for a metric name, the
    value of the first pattern of its list that yields one. *)
Fixpoint first_value (text : string) (pattern_list : list regex) : option Q :=
  match pattern_list with
  | [] => None
  | pattern :: pattern_list' =>
      match pattern_value text pattern with
      | Some v => Some v
      | None => first_value text pattern_list'
      end
  end.

Fixpoint assoc {A} (key : string) (items : list (string * A)) : option A :=
  match items with
  | [] => None
  | (k, v) :: items' => if String.eqb k key then Some v else assoc key items'
  end.

Definition extract_spec (text : string) (metric_name : string) : option Q :=
  match assoc metric_name patterns with
  | Some pattern_list => first_value text pattern_list
  | None => None
  end.

(** The content of the file a call of [_create_strategy_variant] wrote. *)
Definition written (o : outcome (string * gmap string string)) : outcome (option string) :=
  match o with
  | Return (path, fs') => Return (fs' !! path)
  | Raise e => Raise e
  end.

Definition with_timeout (t : Z) (self : MultiAssetTester) : MultiAssetTester :=
  {| data_dir := data_dir self; max_workers := max_workers self; timeout := t;
     conda_env := conda_env self; results := results self;
     available_assets := available_assets self |}.



(** *** A concrete world for the examples *)

(** Templates without a backslash stand for themselves. *)
Definition plain_template (template : string) : outcome (string → string) :=
  if has_char "\" template then Raise (re_error "bad escape")
  else Return (λ _, template).

(** A runner that reports success with the given console output. *)
Definition runner_success (seconds : Q) (console : string)
  : gmap string string → string → string → runner_call :=
  λ _ _ _, {| reply := RunnerReturns {[ "success" := PyBool true;
                                         "stdout" := PyStr console;
                                         "stderr" := PyStr "" ]};
              elapsed := seconds |}.

(** A runner that reports a failure, as in Scenario C. *)
Definition runner_failure (seconds : Q) (message : string)
  : gmap string string → string → string → runner_call :=
  λ _ _ _, {| reply := RunnerReturns {[ "success" := PyBool false;
                                         "error" := PyStr message;
                                         "stderr" := PyStr message ]};
              elapsed := seconds |}.

Definition example_tester (assets : list (string * string)) : MultiAssetTester :=
  __init__ (Some "/data/ohlcv") (Some 2) 300 "tflow" "/repo/src" 8 assets.

Definition example_source : string :=
  "import pandas as pd" +:+ String nl "# strategy" +:+ String nl "x = 1".

Definition example_fs : gmap string string := {[ "/strategies/momentum.py" := example_source ]}.

Definition no_crash : string * string * string * string → option exn := λ _, None.

Definition pool_broken : string * string * string * string → option exn :=
  λ _, Some (BrokenProcessPool "A process in the process pool was terminated abruptly while the future was running or pending.").

Definition Scenario_D_stdout : string :=
  "Sharpe Ratio    1.85" +:+ String nl "Return [%]   12.40".

(** *** What a pattern matches

    [matches ic r x g g']: the expression [r] matches the whole of the text
    [x], and a capture that was [g] before is [g'] after. *)

Inductive run_of (ic : bool) (cs : charset) : string → Prop :=
| run_nil : run_of ic cs ""
| run_cons (c : ascii) (x : string) :
    accepts ic cs c = true → run_of ic cs x → run_of ic cs (String c x).

Inductive matches (ic : bool) : regex → string → option string → option string → Prop :=
| matches_eps g : matches ic Eps "" g g
| matches_chr cs c g : accepts ic cs c = true → matches ic (Chr cs) (String c "") g g
| matches_opt_none cs g : matches ic (Opt cs) "" g g
| matches_opt_some cs c g :
    accepts ic cs c = true → matches ic (Opt cs) (String c "") g g
| matches_star cs x g : run_of ic cs x → matches ic (Star cs) x g g
| matches_plus cs c x g :
    accepts ic cs c = true → run_of ic cs x → matches ic (Plus cs) (String c x) g g
| matches_lazy cs x g : run_of ic cs x → matches ic (LazyStar cs) x g g
| matches_seq r1 r2 x y g g1 g2 :
    matches ic r1 x g g1 → matches ic r2 y g1 g2 → matches ic (Seq r1 r2) (x +:+ y) g g2
| matches_group r x g g1 : matches ic r x g g1 → matches ic (Group r) x g (Some x).

(** The expression inside the last group of a pattern, if it has one. *)
Fixpoint group_of (r : regex) : option regex :=
  match r with
  | Group r0 => Some r0
  | Seq r1 r2 =>
      match group_of r2 with
      | Some r0 => Some r0
      | None => group_of r1
      end
  | _ => None
  end.


(** Two results for the examples of the summary: one test that printed
    the output of Scenario D and one that printed a lower Sharpe ratio. *)
Definition example_results : list TestResult :=
  [ test_strategy_on_asset plain_template
      (runner_success 2 ("Sharpe Ratio 0.50" +:+ String nl "Return [%] 3.0"))
      "2025-03-14T10:00:00" (example_tester []) example_fs
      "/strategies/momentum.py" "ETHUSDT" "/data/ohlcv/ETHUSDT.csv" "/tmp/run";
    test_strategy_on_asset plain_template
      (runner_success 2 Scenario_D_stdout)
      "2025-03-14T10:00:00" (example_tester []) example_fs
      "/strategies/momentum.py" "BTCUSDT" "/data/ohlcv/BTCUSDT.csv" "/tmp/run" ].

(** ** [MultiAssetTester._discover_assets] *)

(** [d[key] = value] on a dictionary kept as the list of its items: the
    value of a key that is present is replaced where it stands, a new key
    goes to the end. *)
Fixpoint dict_setitem {A} (key : string) (value : A) (d : list (string * A))
  : list (string * A) :=
  match d with
  | [] => [(key, value)]
  | (k, v) :: d' =>
      if String.eqb k key then (k, value) :: d'
      else (k, v) :: dict_setitem key value d'
  end.

(** [_discover_assets]: [dir_exists] is the answer of
    [self.data_dir.exists()] and [glob] what [self.data_dir.glob("*.csv")]
    yields, in its order.  The catalog keeps each file as the string the
    orchestrator later makes of it with [str(data_path)]. *)
Definition _discover_assets (dir_exists : bool) (glob : list PurePath)
  : list (string * string) :=
  if negb dir_exists then []
  else
    fold_left
      (λ assets csv_file, dict_setitem (Path_stem csv_file) (Path_str csv_file) assets)
      glob [].

(** ** [MultiAssetTester.save_results] *)

(** The dictionary [data] that [json.dump] writes. *)
Module data.
Record t : Type := {
  timestamp : string;
  strategy : string;
  total_tests : nat;
  assets_tested : list string;
  max_workers : nat;
  timeout : Z;
  conda_env : string;
  results : list TestResult
}.
End data.

(** [save_results]: the file it returns and the dictionary it writes
    there; [now] is [datetime.now().isoformat()].  Creating the directory
    and writing the file are taken to succeed. *)
Definition save_results (now : string) (self : MultiAssetTester) (output_path : string)
  : PurePath * data.t :=
  let output_file := Path output_path in
  (output_file,
   {| data.timestamp := now;
      data.strategy :=
        match results self with
        | r :: _ => strategy r
        | [] => "unknown"
        end;
      data.total_tests := length (results self);
      data.assets_tested := (available_assets self).*1;
      data.max_workers := max_workers self;
      data.timeout := timeout self;
      data.conda_env := conda_env self;
      data.results := results self |}).

(** ** [main] *)

(** The tester after [test_strategy_on_all_assets] returned the list
    [returned]: the list is stored in [self.results], unless there was no
    asset to test. *)
Definition after_run (self : MultiAssetTester) (returned : list TestResult)
  : MultiAssetTester :=
  match available_assets self with
  | [] => self
  | _ =>
      {| data_dir := data_dir self; max_workers := max_workers self;
         timeout := timeout self; conda_env := conda_env self;
         results := returned; available_assets := available_assets self |}
  end.

(** The optional arguments of the command line. *)
Record Options : Type := {
  opt_data_dir : option string;
  opt_workers : option Z;
  opt_timeout : Z;
  opt_output_file : option string
}.

Definition default_options : Options :=
  {| opt_data_dir := None; opt_workers := None; opt_timeout := 300;
     opt_output_file := None |}.

Section Main.

(** [int_] is [int] on a string; the other variables are those of the
    tester, [saved_at] the time [save_results] reads, [stamp] the value of
    [datetime.now().strftime('%Y%m%d_%H%M%S')] and [module_dir] the
    directory [Path(__file__).parent.parent]. *)
Variable int_ : string → outcome Z.
Variable parse_template : string → outcome (string → string).
Variable run_backtest_in_conda : gmap string string → string → string → runner_call.
Variable now : string.
Variable mkdtemp : string → string.
Variable as_completed :
  list (string * string * string * string) → list (string * string * string * string).
Variable worker_crash : string * string * string * string → option exn.
Variable saved_at : string.
Variable stamp : string.
Variable module_dir : string.

(** The loop of [main] over [sys.argv[2:]]: an option takes the argument
    after it as its value, whatever that is; anything else, and an option
    in the last place, is stepped over. *)
Fixpoint parse_arguments (argv : list string) (o : Options) : outcome Options :=
  match argv with
  | [] => Return o
  | arg :: argv' =>
      match argv' with
      | [] => Return o
      | value :: rest =>
          if String.eqb arg "--data-dir" then
            parse_arguments rest
              {| opt_data_dir := Some value; opt_workers := opt_workers o;
                 opt_timeout := opt_timeout o; opt_output_file := opt_output_file o |}
          else if String.eqb arg "--workers" then
            n ← int_ value;
            parse_arguments rest
              {| opt_data_dir := opt_data_dir o; opt_workers := Some n;
                 opt_timeout := opt_timeout o; opt_output_file := opt_output_file o |}
          else if String.eqb arg "--timeout" then
            n ← int_ value;
            parse_arguments rest
              {| opt_data_dir := opt_data_dir o; opt_workers := opt_workers o;
                 opt_timeout := n; opt_output_file := opt_output_file o |}
          else if String.eqb arg "--output" then
            parse_arguments rest
              {| opt_data_dir := opt_data_dir o; opt_workers := opt_workers o;
                 opt_timeout := opt_timeout o; opt_output_file := Some value |}
          else parse_arguments argv' o
      end
  end.

(** The end of [main], from the run of the tests on: the summary is
    printed and then the results are saved, to [output_file] or to the
    default place.  The result is the file saved and its content. *)
Definition run_and_save (tester : MultiAssetTester) (fs : gmap string string)
    (strategy_path : string) (output_file : option string)
  : outcome (PurePath * data.t) :=
  let returned :=
    test_strategy_on_all_assets parse_template run_backtest_in_conda now mkdtemp
      as_completed worker_crash tester fs strategy_path in
  let tester := after_run tester returned in
  _ ← print_summary (results tester);
  match output_file with
  | Some (String c s) => Return (save_results saved_at tester (String c s))
  | _ =>
      let strategy_name := Path_stem (Path strategy_path) in
      let default_output :=
        Path_div
          (Path_div (Path_div (Path module_dir) "data") "multi_asset_results")
          (strategy_name +:+ "_" +:+ stamp +:+ ".json") in
      Return (save_results saved_at tester (Path_str default_output))
  end.

End Main.

(** *** More of the concrete world *)

(** Two data files, as [glob] may yield them. *)
Definition example_glob : list PurePath :=
  [Path "/data/ohlcv/BTCUSDT.csv"; Path "/data/ohlcv/ETH-USD-15m.csv"].

(** An [int] for the examples: it reads plain decimal digits and refuses
    everything else. *)
Definition example_int (s : string) : outcome Z :=
  match read_digits s 0 0 with
  | (v, S _, "") => Return v
  | _ => Raise (ValueError "invalid literal for int() with base 10")
  end.

(** * Properties *)

(** ** The metrics extractor *)

Section Extraction.
Variable text : string.

Lemma for_pattern_str (metric_name : string) (pattern_list : list regex)
    (metrics : gmap string Q) :
  for_pattern (PyStr text) metric_name pattern_list metrics =
  Return (match first_value text pattern_list with
          | Some v => <[metric_name := v]> metrics
          | None => metrics
          end).
Proof.
  induction pattern_list as [|pattern pattern_list' IH]; [reflexivity|].
  cbn [for_pattern first_value search_obj mbind outcome_bind].
  unfold pattern_value.
  destruct (search true pattern text) as [mt|]; [|exact IH].
  destruct (float_ (group1 mt)); [reflexivity | exact IH].
Qed.

Lemma for_metric_str (items : list (string * list regex)) :
  NoDup items.*1 →
  ∀ metrics : gmap string Q,
  ∃ metrics' : gmap string Q,
    for_metric (PyStr text) items metrics = Return metrics' ∧
    ∀ name,
      metrics' !! name =
      match assoc name items with
      | Some pattern_list =>
          match first_value text pattern_list with
          | Some v => Some v
          | None => metrics !! name
          end
      | None => metrics !! name
      end.
Proof.
  induction items as [|[k pl] items' IH]; intros Hnd metrics.
  - exists metrics. split; reflexivity.
  - cbn [fmap list_fmap fst] in Hnd. apply NoDup_cons in Hnd as [Hk Hnd].
    cbn [for_metric]. rewrite for_pattern_str.
    cbn [mbind outcome_bind].
    destruct (IH Hnd (match first_value text pl with
                      | Some v => <[k := v]> metrics
                      | None => metrics
                      end)) as (metrics' & Hrun & Hlook).
    exists metrics'. split; [exact Hrun|].
    intros name. rewrite Hlook. cbn [assoc].
    destruct (String.eqb_spec k name) as [->|Hne].
    + assert (assoc name items' = None) as ->.
      { clear -Hk. induction items' as [|[k' v'] items'' IH']; [reflexivity|].
        cbn [assoc]. destruct (String.eqb_spec k' name) as [->|_].
        - exfalso. apply Hk. cbn. left.
        - apply IH'. intros Hin. apply Hk. cbn. right. exact Hin. }
      destruct (first_value text pl); [apply lookup_insert_eq | reflexivity].
    + destruct (assoc name items') as [pl'|].
      * destruct (first_value text pl'); [reflexivity|].
        destruct (first_value text pl); [by rewrite lookup_insert_ne | reflexivity].
      * destruct (first_value text pl); [by rewrite lookup_insert_ne | reflexivity].
Qed.

Lemma patterns_keys_NoDup : NoDup patterns.*1.
Proof. apply (bool_decide_unpack _). vm_compute. reflexivity. Qed.

Lemma parse_backtest_output_spec :
  ∃ metrics : gmap string Q,
    _parse_backtest_output (PyStr text) = Return metrics ∧
    ∀ name, metrics !! name = extract_spec text name.
Proof.
  destruct (for_metric_str patterns patterns_keys_NoDup ∅) as (metrics & Hrun & Hlook).
  exists metrics. split; [exact Hrun|].
  intros name. rewrite Hlook. unfold extract_spec.
  destruct (assoc name patterns) as [pl|]; [|apply lookup_empty].
  destruct (first_value text pl); [reflexivity | apply lookup_empty].
Qed.

Lemma first_value_split (pre post : list regex) (p : regex) (v : Q) :
  Forall (λ q, pattern_value text q = None) pre →
  pattern_value text p = Some v →
  first_value text (pre ++ p :: post) = Some v.
Proof.
  intros Hpre Hp. induction Hpre as [|q pre' Hq _ IH]; cbn.
  - by rewrite Hp.
  - by rewrite Hq.
Qed.

Lemma first_value_is_Some (pattern_list : list regex) :
  is_Some (first_value text pattern_list) ↔
  Exists (λ p, is_Some (pattern_value text p)) pattern_list.
Proof.
  induction pattern_list as [|p pl IH]; cbn.
  - split; [intros [? ?]; discriminate | intros H; inversion H].
  - rewrite Exists_cons. destruct (pattern_value text p) as [v|].
    + split; [left|]; eauto.
    + rewrite IH. split; [by right | intros [[? ?]|?]; [discriminate | done]].
Qed.
End Extraction.

(** C4. On every text [_parse_backtest_output] returns a dictionary and
    never raises.  A metric is in the dictionary exactly when one of its
    patterns is found in the text with a group that reads as a number, and
    its value is then the one of the first such pattern: a metric that is
    not found is absent, not zero.  On the empty text the dictionary is
    empty. *)
Theorem parse_backtest_output_total :
  (∀ text : string, ∃ metrics : gmap string Q,
      _parse_backtest_output (PyStr text) = Return metrics
      ∧ (∀ name, metrics !! name = extract_spec text name)
      ∧ (∀ name, is_Some (metrics !! name) ↔
           ∃ pattern_list, assoc name patterns = Some pattern_list
             ∧ Exists (λ p, is_Some (pattern_value text p)) pattern_list))
  ∧ _parse_backtest_output (PyStr "") = Return ∅.
Proof.
  split; [|vm_compute; reflexivity].
  intros text.
  destruct (parse_backtest_output_spec text) as (metrics & Hrun & Hlook).
  exists metrics. split; [exact Hrun|]. split; [exact Hlook|].
  intros name. rewrite Hlook. unfold extract_spec.
  destruct (assoc name patterns) as [pl|].
  - rewrite first_value_is_Some. split.
    + intros H. exists pl. by split.
    + intros (pl' & Heq & H). by simplify_eq.
  - split; [intros [? ?]; discriminate | intros (? & ? & _); discriminate].
Qed.

(** C5. For each metric the patterns are tried in order, without regard to
    case, and the first one that is found and whose group reads as a number
    gives the value, whatever the later patterns of the list would find.
    On the console output of Scenario D the result has [sharpe] 1.85 and
    [return] 12.40 and no other metric; the same text in another case gives
    the same result. *)
Theorem first_pattern_wins :
  (∀ (text name : string) (pre post : list regex) (p : regex) (v : Q),
      assoc name patterns = Some (pre ++ p :: post) →
      Forall (λ q, pattern_value text q = None) pre →
      pattern_value text p = Some v →
      ∃ metrics : gmap string Q,
        _parse_backtest_output (PyStr text) = Return metrics
        ∧ metrics !! name = Some v)
  ∧ (∀ (text name : string) (pre post : list regex) (p : regex) (v : Q)
       (metrics : gmap string Q),
      Forall (λ q, pattern_value text q = None) pre →
      pattern_value text p = Some v →
      for_pattern (PyStr text) name (pre ++ p :: post) metrics
      = Return (<[name := v]> metrics))
  ∧ _parse_backtest_output (PyStr Scenario_D_stdout)
    = Return {[ "sharpe" := Qred 1.85; "return" := Qred 12.40 ]}
  ∧ _parse_backtest_output
      (PyStr ("SHARPE RATIO    1.85" +:+ String nl "return [%]   12.40"))
    = Return {[ "sharpe" := Qred 1.85; "return" := Qred 12.40 ]}.
Proof.
  split; [|split; [|split; vm_compute; reflexivity]].
  - intros text name pre post p v Hassoc Hpre Hp.
    destruct (parse_backtest_output_spec text) as (metrics & Hrun & Hlook).
    exists metrics. split; [exact Hrun|].
    rewrite Hlook. unfold extract_spec. rewrite Hassoc.
    by apply first_value_split.
  - intros text name pre post p v metrics Hpre Hp.
    rewrite for_pattern_str. by rewrite (first_value_split text pre post p v).
Qed.

Lemma first_pattern_wins_witness :
  ∃ metrics : gmap string Q,
    _parse_backtest_output (PyStr "Total Return 12.5% (Return [%] missing)")
    = Return metrics
    ∧ metrics !! "return" = Some (Qred 12.5).
Proof.
  apply (proj1 first_pattern_wins
           "Total Return 12.5% (Return [%] missing)" "return"
           [lit "Return" ;;; Star Space ;;; lit "[%]" ;;; Star Space ;;; Group signed_number]
           [lit "Return" ;;; LazyStar Dot ;;; Group signed_number]
           (lit "Total Return" ;;; LazyStar Dot ;;; Group signed_number ;;; lit "%")
           (Qred 12.5)).
  - vm_compute. reflexivity.
  - repeat constructor.
  - vm_compute. reflexivity.
Defined.

(** ** One test: [test_strategy_on_asset] *)

Section OneTest.
Variable parse_template : string → outcome (string → string).
Variable run_backtest_in_conda : gmap string string → string → string → runner_call.
Variable now : string.
Variable self : MultiAssetTester.
Variable fs : gmap string string.
Variables strategy_path asset_name data_file temp_dir : string.

Let the_result : TestResult :=
  test_strategy_on_asset parse_template run_backtest_in_conda now
    self fs strategy_path asset_name data_file temp_dir.

(** The three ways a test ends. *)
Lemma result_cases :
  (status the_result = "success" ∧ ∃ text, stdout the_result = Some (PyStr text)
     ∧ _parse_backtest_output (PyStr text) = Return (metrics the_result))
  ∨ (status the_result = "failed" ∧ metrics the_result = ∅)
  ∨ (status the_result = "error" ∧ metrics the_result = ∅).
Proof.
  unfold the_result, test_strategy_on_asset.
  destruct (_create_strategy_variant _ _ _ _ _ _) as [[variant fs']|e];
    [|right; right; by split].
  destruct (reply _) as [backtest_result|e]; [|right; right; by split].
  destruct (truthy _); [|right; left; by split].
  destruct (dict_get backtest_result "stdout" (PyStr "")) as [| | |text] eqn:Hout;
    try (right; right; by split).
  destruct (_parse_backtest_output (PyStr text)) as [m|e] eqn:Hparse.
  - left. split; [reflexivity|]. exists text. by split.
  - destruct (parse_backtest_output_spec text) as (m & Hm & _).
    congruence.
Qed.

Lemma status_of_result :
  status the_result = "success" ∨ status the_result = "failed"
  ∨ status the_result = "error".
Proof.
  destruct result_cases as [[H _]|[[H _]|[H _]]]; auto.
Qed.

Lemma metrics_of_result :
  status the_result = "success" ∨ metrics the_result = ∅.
Proof.
  destruct result_cases as [[H _]|[[_ H]|[_ H]]]; auto.
Qed.

(** The tester's [timeout] is not read by a test. *)
Lemma timeout_not_read (t : Z) :
  test_strategy_on_asset parse_template run_backtest_in_conda now
    (with_timeout t self) fs strategy_path asset_name data_file temp_dir
  = the_result.
Proof. reflexivity. Qed.
End OneTest.

(** C3. A result of [test_strategy_on_asset] whose status is not
    ['success'] has an empty metrics dictionary. *)
Theorem unsuccessful_result_has_no_metrics :
  ∀ (parse_template : string → outcome (string → string))
    (run_backtest_in_conda : gmap string string → string → string → runner_call)
    (now : string) (self : MultiAssetTester) (fs : gmap string string)
    (strategy_path asset_name data_file temp_dir : string),
    status (test_strategy_on_asset parse_template run_backtest_in_conda now
              self fs strategy_path asset_name data_file temp_dir) ≠ "success" →
    metrics (test_strategy_on_asset parse_template run_backtest_in_conda now
               self fs strategy_path asset_name data_file temp_dir) = ∅.
Proof.
  intros pt run now self fs sp a dp td Hstatus.
  destruct (metrics_of_result pt run now self fs sp a dp td) as [H|H];
    [contradiction | exact H].
Qed.

Lemma unsuccessful_result_has_no_metrics_witness :
  metrics (test_strategy_on_asset plain_template
             (runner_failure 2 "division by zero") "2025-03-14T10:00:00"
             (example_tester [("BTCUSDT", "/data/ohlcv/BTCUSDT.csv")]) example_fs
             "/strategies/momentum.py" "BTCUSDT" "/data/ohlcv/BTCUSDT.csv" "/tmp/run")
  = ∅.
Proof.
  apply unsuccessful_result_has_no_metrics.
  vm_compute. discriminate.
Defined.

(** C10. The status of a result of [test_strategy_on_asset] is one of
    ['success'], ['failed'] and ['error']; it is never the initial
    ['unknown'] and never ['timeout']. *)
Theorem status_is_success_failed_or_error :
  ∀ (parse_template : string → outcome (string → string))
    (run_backtest_in_conda : gmap string string → string → string → runner_call)
    (now : string) (self : MultiAssetTester) (fs : gmap string string)
    (strategy_path asset_name data_file temp_dir : string),
    status (test_strategy_on_asset parse_template run_backtest_in_conda now
              self fs strategy_path asset_name data_file temp_dir)
      ∈ ["success"; "failed"; "error"]
    ∧ status (test_strategy_on_asset parse_template run_backtest_in_conda now
                self fs strategy_path asset_name data_file temp_dir) ≠ "unknown"
    ∧ status (test_strategy_on_asset parse_template run_backtest_in_conda now
                self fs strategy_path asset_name data_file temp_dir) ≠ "timeout".
Proof.
  intros pt run now self fs sp a dp td.
  destruct (status_of_result pt run now self fs sp a dp td) as [H|[H|H]];
    rewrite H; (split; [set_solver | split; discriminate]).
Qed.




(** ** The orchestrator: [test_strategy_on_all_assets] *)

Section Orchestrator.
Variable parse_template : string → outcome (string → string).
Variable run_backtest_in_conda : gmap string string → string → string → runner_call.
Variable now : string.
Variable mkdtemp : string → string.
Variable as_completed :
  list (string * string * string * string) → list (string * string * string * string).
Variable worker_crash : string * string * string * string → option exn.
Variable self : MultiAssetTester.
Variable fs : gmap string string.

(** Every future completes, in some order. *)
Hypothesis as_completed_perm : ∀ tasks, as_completed tasks ≡ₚ tasks.

Let run_all : string → list TestResult :=
  test_strategy_on_all_assets parse_template run_backtest_in_conda now mkdtemp
    as_completed worker_crash self fs.

Lemma collect_length (futures : list (string * string * string * string))
    (results : list TestResult) (completed : nat) :
  length (collect parse_template run_backtest_in_conda now worker_crash self fs
            futures results completed).1
  = length results + length (filter (λ task, worker_crash task = None) futures)
  ∧ (collect parse_template run_backtest_in_conda now worker_crash self fs
       futures results completed).2
    = completed + length futures.
Proof.
  revert results completed.
  induction futures as [|task futures' IH]; intros results completed; cbn [collect].
  - cbn. lia.
  - unfold future_result. rewrite filter_cons.
    destruct (worker_crash task) as [e|] eqn:Hcrash.
    + destruct (decide _) as [?|_]; [discriminate|].
      destruct (IH results (completed + 1)) as [-> ->]. cbn [length]. lia.
    + destruct task as [[[sp a] dp] td].
      destruct (decide _) as [_|?]; [|contradiction].
      destruct (IH (results ++ [test_strategy_on_asset parse_template
                                 run_backtest_in_conda now self fs sp a dp td])
                   (completed + 1)) as [-> ->].
      rewrite length_app. cbn [length]. lia.
Qed.

Let tasks_of (strategy_path : string) : list (string * string * string * string) :=
  map (λ '(asset, data_path),
         (strategy_path, asset, data_path,
          mkdtemp ("moon_dev_multi_asset_" +:+ Path_stem (Path strategy_path) +:+ "_")))
      (available_assets self).

(** The returned list has one record for each task whose future returns,
    so at most one per asset. *)
Lemma run_all_length (strategy_path : string) :
  length (run_all strategy_path)
  = length (filter (λ task, worker_crash task = None) (tasks_of strategy_path))
  ∧ (length (run_all strategy_path) ≤ length (available_assets self))%nat.
Proof.
  assert (length (run_all strategy_path)
          = length (filter (λ task, worker_crash task = None) (tasks_of strategy_path)))
    as Hlen.
  { unfold run_all, test_strategy_on_all_assets, tasks_of.
    destruct (available_assets self) as [|a assets] eqn:Hassets; [reflexivity|].
    rewrite (proj1 (collect_length _ _ _)). cbn [length Nat.add].
    by rewrite (as_completed_perm _). }
  split; [exact Hlen|].
  rewrite Hlen. etrans; [apply length_filter|].
  unfold tasks_of. by rewrite length_map.
Qed.

(** When no future raises there is one record per asset. *)
Lemma run_all_length_no_crash (strategy_path : string) :
  (∀ task, worker_crash task = None) →
  length (run_all strategy_path) = length (available_assets self).
Proof.
  intros Hno. rewrite (proj1 (run_all_length strategy_path)).
  assert (∀ l, filter (λ task, worker_crash task = None) l = l) as ->.
  { induction l as [|t l IH]; [reflexivity|].
    rewrite filter_cons. destruct (decide _) as [_|Hc]; [by rewrite IH|].
    by specialize (Hno t). }
  unfold tasks_of. by rewrite length_map.
Qed.
End Orchestrator.

(** With two assets and no crashed worker the run returns two records. *)
Example two_assets_two_results :
  map asset
    (test_strategy_on_all_assets plain_template
       (runner_success 2 Scenario_D_stdout) "2025-03-14T10:00:00"
       (λ prefix, "/tmp/" +:+ prefix +:+ "x1") (λ tasks, tasks) no_crash
       (example_tester [("BTCUSDT", "/data/ohlcv/BTCUSDT.csv");
                        ("ETHUSDT", "/data/ohlcv/ETHUSDT.csv")]) example_fs
       "/strategies/momentum.py")
  = ["BTCUSDT"; "ETHUSDT"].
Proof. vm_compute. reflexivity. Qed.

(** C1 fails on the code.  With one asset in the catalog and a worker
    process that dies, so that [future.result()] raises
    [BrokenProcessPool], the handler of the collecting loop prints the
    exception and appends nothing: the run returns no record for the one
    submitted task. *)
Theorem crashed_task_is_dropped :
  length (available_assets (example_tester [("BTCUSDT", "/data/ohlcv/BTCUSDT.csv")])) = 1
  ∧ test_strategy_on_all_assets plain_template
      (runner_success 2 Scenario_D_stdout) "2025-03-14T10:00:00"
      (λ prefix, "/tmp/" +:+ prefix +:+ "x1") (λ tasks, tasks) pool_broken
      (example_tester [("BTCUSDT", "/data/ohlcv/BTCUSDT.csv")]) example_fs
      "/strategies/momentum.py"
    = [].
Proof. split; vm_compute; reflexivity. Qed.

(** ** The name of the variant file *)

Lemma length_append (a b : string) :
  String.length (a +:+ b) = String.length a + String.length b.
Proof. induction a as [|c a IH]; simpl; [reflexivity | by rewrite IH]. Qed.

Lemma append_assoc (a b c : string) : (a +:+ b) +:+ c = a +:+ b +:+ c.
Proof.
  induction a as [|x a IH]; [reflexivity|].
  change (String x ((a +:+ b) +:+ c) = String x (a +:+ b +:+ c)). by rewrite IH.
Qed.

Lemma has_char_append (c : ascii) (a b : string) :
  has_char c (a +:+ b) = has_char c a || has_char c b.
Proof.
  induction a as [|x a IH]; simpl; [reflexivity|].
  rewrite IH. by rewrite orb_assoc.
Qed.

Lemma string_take_append (a b : string) : string_take (String.length a) (a +:+ b) = a.
Proof. induction a as [|c a IH]; simpl; [by destruct b | by rewrite IH]. Qed.

Lemma string_drop_append (a b : string) : string_drop (String.length a) (a +:+ b) = b.
Proof. induction a as [|c a IH]; simpl; [by destruct b | exact IH]. Qed.

Lemma has_char_string_take (c : ascii) (n : nat) (s : string) :
  has_char c s = false → has_char c (string_take n s) = false.
Proof.
  revert n. induction s as [|a s IH]; intros [|n] H; cbn in *; try reflexivity.
  apply orb_false_iff in H as [-> H]. cbn. by apply IH.
Qed.

Lemma rfind_absent (c : ascii) (s : string) : has_char c s = false → rfind c s = None.
Proof.
  induction s as [|a s IH]; cbn; [reflexivity|].
  intros H. apply orb_false_iff in H as [Ha H]. by rewrite (IH H), Ha.
Qed.

Lemma rfind_last (c : ascii) (a b : string) :
  has_char c b = false → rfind c (a +:+ String c b) = Some (String.length a).
Proof.
  intros Hb. induction a as [|x a IH]; simpl.
  - by rewrite (rfind_absent c b Hb), Ascii.eqb_refl.
  - by rewrite IH.
Qed.

Lemma str_split_no_sep (sep : ascii) (s : string) :
  has_char sep s = false → str_split sep s = [s].
Proof.
  induction s as [|c s IH]; cbn; [reflexivity|].
  intros H. apply orb_false_iff in H as [-> H]. by rewrite (IH H).
Qed.

Lemma str_split_parts (sep : ascii) (s part : string) :
  part ∈ str_split sep s → has_char sep part = false.
Proof.
  revert part. induction s as [|c s IH]; intros part; cbn.
  - intros ->%list_elem_of_singleton. reflexivity.
  - destruct (Ascii.eqb c sep) eqn:Hc.
    + intros [->|Hin]%elem_of_cons; [reflexivity | by apply IH].
    + destruct (str_split sep s) as [|l ls] eqn:Hsplit.
      * intros ->%list_elem_of_singleton. cbn. by rewrite Hc.
      * intros [->|Hin]%elem_of_cons.
        -- cbn. rewrite Hc. apply IH. left.
        -- apply IH. by right.
Qed.

Lemma Path_name_no_slash (s : string) : has_char "/" (Path_name (Path s)) = false.
Proof.
  unfold Path_name, Path. cbn [parts].
  assert (∀ l : list string, (∀ x, x ∈ l → has_char "/" x = false) →
            has_char "/" (List.last l "") = false) as Hlast.
  { induction l as [|x [|y l] IH]; intros Hl; cbn; [reflexivity | | ].
    - apply Hl. left.
    - apply IH. intros z Hz. apply Hl. by right. }
  apply Hlast. intros x [_ Hx]%list_elem_of_filter. by apply (str_split_parts _ s).
Qed.

Lemma Path_stem_no_slash (s : string) : has_char "/" (Path_stem (Path s)) = false.
Proof.
  unfold Path_stem. destruct (suffix_index _).
  - apply has_char_string_take, Path_name_no_slash.
  - apply Path_name_no_slash.
Qed.

Lemma Path_single_component (name : string) :
  has_char "/" name = false → is_component name = true →
  Path name = {| absolute := false; parts := [name] |}.
Proof.
  intros Hslash Hcomp. unfold Path. rewrite (str_split_no_sep _ _ Hslash).
  rewrite filter_cons, filter_nil. destruct (decide _) as [_|?]; [|contradiction].
  f_equal. destruct name as [|c name]; [reflexivity|].
  cbn [has_char] in Hslash. apply orb_false_iff in Hslash as [Hc _].
  cbn [absolute startswith]. by rewrite Ascii.eqb_sym, Hc.
Qed.

Lemma is_component_long (s : string) :
  (2 ≤ String.length s)%nat → is_component s = true.
Proof.
  destruct s as [|a [|b s]]; cbn [String.length]; [lia | lia |].
  intros _. unfold is_component. simpl. by destruct (Ascii.eqb a ".").
Qed.

Lemma suffix_index_py (base : string) :
  base ≠ "" → suffix_index (base +:+ ".py") = Some (String.length base).
Proof.
  intros Hbase. unfold suffix_index.
  rewrite (rfind_last "." base "py") by reflexivity.
  rewrite length_append. cbn [String.length].
  destruct base as [|c base]; [contradiction|]. cbn [String.length].
  replace (0 <? S (String.length base))%nat with true
    by (symmetry; apply Nat.ltb_lt; lia).
  replace (S (String.length base) <? S (String.length base) + 3 - 1)%nat with true
    by (symmetry; apply Nat.ltb_lt; lia).
  reflexivity.
Qed.

Lemma new_path_name (temp_dir strategy_path asset_name : string) :
  has_char "/" asset_name = false →
  Path_name (new_path temp_dir strategy_path asset_name)
  = new_filename strategy_path asset_name.
Proof.
  intros Hasset. unfold new_path, Path_div.
  rewrite (Path_single_component (new_filename strategy_path asset_name)).
  - cbn [absolute parts]. unfold Path_name. cbn [parts]. apply last_last.
  - unfold new_filename. rewrite !has_char_append, Path_stem_no_slash, Hasset.
    reflexivity.
  - apply is_component_long. unfold new_filename.
    rewrite !length_append. cbn [String.length]. lia.
Qed.

(** C9 fails on the code: the name of the variant always ends in [.py].
    For the source [strategy.txt] and the asset [BTCUSDT] the variant is
    [strategy_BTCUSDT.py], whose extension is not the source's [.txt]. *)
Lemma variant_extension_differs :
  Path_suffix (Path "strategy.txt") = ".txt"
  ∧ Path_name (new_path "/tmp/run" "strategy.txt" "BTCUSDT") = "strategy_BTCUSDT.py"
  ∧ Path_name (new_path "/tmp/run" "strategy.txt" "BTCUSDT")
    ≠ Path_stem (Path "strategy.txt") +:+ "_" +:+ "BTCUSDT"
      +:+ Path_suffix (Path "strategy.txt")
  ∧ Path_suffix (new_path "/tmp/run" "strategy.txt" "BTCUSDT")
    ≠ Path_suffix (Path "strategy.txt").
Proof. repeat split; vm_compute; (reflexivity || discriminate). Qed.

(** C9, amended.  For every source file and every asset symbol (a file
    stem, so without a slash) the name of the variant is the base name of
    the source, an underscore, the asset symbol and the extension [.py],
    whatever the extension of the source; it is the source's extension when
    that is [.py]. *)
Theorem variant_filename :
  ∀ temp_dir strategy_path asset_name : string,
    has_char "/" asset_name = false →
    Path_name (new_path temp_dir strategy_path asset_name)
    = Path_stem (Path strategy_path) +:+ "_" +:+ asset_name +:+ ".py"
    ∧ Path_stem (new_path temp_dir strategy_path asset_name)
      = Path_stem (Path strategy_path) +:+ "_" +:+ asset_name
    ∧ Path_suffix (new_path temp_dir strategy_path asset_name) = ".py".
Proof.
  intros td sp a Hasset.
  pose proof (new_path_name td sp a Hasset) as Hname.
  assert (new_filename sp a = (Path_stem (Path sp) +:+ "_" +:+ a) +:+ ".py") as Hassoc
    by (unfold new_filename; by rewrite !append_assoc).
  assert (Path_stem (Path sp) +:+ "_" +:+ a ≠ "") as Hbase
    by (by destruct (Path_stem (Path sp))).
  split; [exact Hname|]. split.
  - unfold Path_stem at 1.
    rewrite Hname, Hassoc, (suffix_index_py _ Hbase). apply string_take_append.
  - unfold Path_suffix.
    rewrite Hname, Hassoc, (suffix_index_py _ Hbase). apply string_drop_append.
Qed.

Lemma variant_filename_witness :
  Path_name (new_path "/tmp/run" "/strategies/momentum.py" "BTCUSDT")
  = Path_stem (Path "/strategies/momentum.py") +:+ "_" +:+ "BTCUSDT" +:+ ".py"
  ∧ Path_stem (new_path "/tmp/run" "/strategies/momentum.py" "BTCUSDT")
    = Path_stem (Path "/strategies/momentum.py") +:+ "_" +:+ "BTCUSDT"
  ∧ Path_suffix (new_path "/tmp/run" "/strategies/momentum.py" "BTCUSDT") = ".py".
Proof.
  apply (variant_filename "/tmp/run" "/strategies/momentum.py" "BTCUSDT").
  reflexivity.
Defined.

(** ** The summary: [print_summary] *)

Lemma bind_Return {A B} (m : outcome A) (f : A → outcome B) (b : B) :
  (m ≫= f) = Return b → ∃ a, m = Return a ∧ f a = Return b.
Proof. destruct m as [a|e]; cbn; [eauto | discriminate]. Qed.

(** ** The variant generator: [_create_strategy_variant] *)

Lemma find_import_end_spec (lines : list string) (i : nat) :
  ∃ header rest : list string,
    lines = header ++ rest
    ∧ Forall (λ line, is_header_line line = true) header
    ∧ (rest = [] ∨ ∃ line rest', rest = line :: rest' ∧ is_header_line line = false)
    ∧ find_import_end lines i i = i + length header.
Proof.
  revert i. induction lines as [|line lines' IH]; intros i.
  - exists [], []. repeat split; [constructor | by left | cbn; lia].
  - cbn [find_import_end]. destruct (is_header_line line) eqn:Hline.
    + destruct (IH (S i)) as (header & rest & -> & Hheader & Hrest & Hidx).
      exists (line :: header), rest. repeat split.
      * by constructor.
      * exact Hrest.
      * rewrite Nat.add_1_r, Hidx. cbn [length]. lia.
    + exists [], (line :: lines'). repeat split; [constructor | right; eauto | cbn; lia].
Qed.

Lemma list_insert_at_app {A} (l1 l2 : list A) (x : A) (i : nat) :
  i = length l1 → list_insert_at i x (l1 ++ l2) = l1 ++ x :: l2.
Proof.
  intros ->. unfold list_insert_at. by rewrite take_app_length, drop_app_length.
Qed.

Lemma inject_spec (header rest : list string) (asset_name data_file : string) :
  find_import_end (header ++ rest) 0 0 = length header →
  inject (header ++ rest) asset_name data_file
  = header ++ injected_lines asset_name data_file ++ rest.
Proof.
  intros Hidx. unfold inject, injected_lines. rewrite Hidx.
  rewrite (list_insert_at_app header rest) by reflexivity.
  rewrite (cons_middle _ header rest), (assoc_L (++)).
  rewrite (list_insert_at_app (header ++ [_]) rest)
    by (rewrite length_app; cbn; lia).
  rewrite (cons_middle _ (header ++ [_]) rest), (assoc_L (++)).
  rewrite (list_insert_at_app ((header ++ [_]) ++ [_]) rest)
    by (rewrite !length_app; cbn; lia).
  by rewrite <- !(assoc_L (++)).
Qed.

Section Variant.
Variable parse_template : string → outcome (string → string).

Lemma replace_all_no_match (pats : list (regex * string)) (code : string)
    (replaced : bool) :
  Forall (λ pr, search false pr.1 code = None) pats →
  replace_all parse_template pats code replaced = Return (code, replaced).
Proof.
  induction 1 as [|[pattern replacement] pats' Hno _ IH]; [reflexivity|].
  cbn [replace_all]. cbn in Hno. by rewrite Hno.
Qed.

Lemma variant_code_injects (code asset_name data_file : string) :
  Forall (λ pr, search false pr.1 code = None) (patterns_to_replace data_file) →
  ∃ header rest : list string,
    str_split nl code = header ++ rest
    ∧ Forall (λ line, is_header_line line = true) header
    ∧ (rest = [] ∨ ∃ line rest', rest = line :: rest' ∧ is_header_line line = false)
    ∧ variant_code parse_template code asset_name data_file
      = Return (str_join nl (header ++ injected_lines asset_name data_file ++ rest)).
Proof.
  intros Hno. unfold variant_code.
  rewrite (replace_all_no_match _ _ _ Hno). cbn [mbind outcome_bind].
  destruct (find_import_end_spec (str_split nl code) 0)
    as (header & rest & Hsplit & Hheader & Hrest & Hidx).
  exists header, rest. repeat split; try done.
  rewrite Hsplit in *. by rewrite inject_spec.
Qed.

(** *** The steps on the file system *)

Lemma open_r_returns (fs : gmap string string) (made p : PurePath) (code : string) :
  open_r fs made p = Return code →
  ∃ stored, fs !! Path_str p = Some stored ∧ code = universal_newlines stored.
Proof.
  unfold open_r. destruct (fs !! Path_str p) as [stored|]; [intros [= <-]; eauto|].
  destruct (file_in_the_way fs p); [discriminate|].
  destruct (is_dir fs p || leads_to p made); discriminate.
Qed.

Lemma open_w_returns (fs fs' : gmap string string) (made p : PurePath) (content : string) :
  open_w fs made p content = Return fs' → fs' = <[Path_str p := content]> fs.
Proof.
  unfold open_w. destruct (file_in_the_way fs p); [discriminate|].
  destruct (is_dir fs p || leads_to p made); [discriminate|].
  destruct (is_dir fs (Path_parent p) || leads_to (Path_parent p) made);
    [by intros [= <-] | discriminate].
Qed.

(** A call that returns has read the strategy file and written the
    variant, and nothing else. *)
Lemma create_returns (fs fs' : gmap string string)
    (strategy_path asset_name data_file temp_dir path : string) :
  _create_strategy_variant parse_template fs strategy_path asset_name data_file temp_dir
  = Return (path, fs') →
  ∃ stored text,
    fs !! Path_str (Path strategy_path) = Some stored
    ∧ variant_code parse_template (universal_newlines stored) asset_name data_file
      = Return text
    ∧ path = Path_str (new_path temp_dir strategy_path asset_name)
    ∧ fs' = <[path := text]> fs.
Proof.
  unfold _create_strategy_variant.
  intros (made & _ & H)%bind_Return. cbv beta zeta in H.
  apply bind_Return in H as (code & Hread & H).
  apply bind_Return in H as (text & Hcode & H).
  apply bind_Return in H as (fs1 & Hwrite & H).
  apply open_r_returns in Hread as (stored & Hsrc & ->).
  apply open_w_returns in Hwrite as ->.
  injection H as <- <-. by exists stored, text.
Qed.

End Variant.

Lemma str_join_cons (sep : ascii) (a : string) (l : list string) :
  l ≠ [] → str_join sep (a :: l) = a +:+ String sep (str_join sep l).
Proof. by destruct l. Qed.

(** An inserted item that starts with a line feed is a blank line followed
    by the rest of the item. *)
Lemma str_join_leading_nl (l1 l2 : list string) (x : string) :
  str_join nl (l1 ++ String nl x :: l2) = str_join nl (l1 ++ "" :: x :: l2).
Proof.
  induction l1 as [|a l1 IH].
  - destruct l2; reflexivity.
  - cbn [app]. rewrite !str_join_cons by (by destruct l1). by rewrite IH.
Qed.

(** The text of the variant when no pattern is found. *)
Lemma variant_code_injected (parse_template : string → outcome (string → string))
    (code asset_name data_file : string) :
  Forall (λ pr, search false pr.1 code = None) (patterns_to_replace data_file) →
  ∃ header rest : list string,
    str_split nl code = header ++ rest
    ∧ Forall (λ line, is_header_line line = true) header
    ∧ (rest = [] ∨ ∃ line rest', rest = line :: rest' ∧ is_header_line line = false)
    ∧ variant_code parse_template code asset_name data_file
      = Return (str_join nl (header ++
                  [ "";
                    "# Data path for " +:+ asset_name
                      +:+ " (injected by Multi-Asset Tester)";
                    "data_path = " +:+ String dquote data_file +:+ String dquote "";
                    "" ] ++ rest)).
Proof.
  intros Hno.
  destruct (variant_code_injects parse_template code asset_name data_file Hno)
    as (header & rest & Hsplit & Hheader & Hrest & Hcode).
  exists header, rest. repeat split; try done.
  rewrite Hcode. unfold injected_lines, data_path_declaration.
  change (String nl "# Data path for " +:+ asset_name
            +:+ " (injected by Multi-Asset Tester)")
    with (String nl ("# Data path for " +:+ asset_name
                       +:+ " (injected by Multi-Asset Tester)")).
  cbn [app]. by rewrite str_join_leading_nl.
Qed.

(** C6. When none of the rewrite patterns is found in the text read from
    the strategy file, the variant that is written is that text with four
    lines put right after the leading block of blank, comment and import
    lines: a blank line, a comment, the declaration
    [data_path = "<data_file>"] and an empty line.  The declaration is thus
    the first line of the variant that is not a blank, comment or import
    line, and the lines of the source are all there, unchanged and in
    order. *)
Theorem injection_after_header :
  ∀ (parse_template : string → outcome (string → string)) (fs fs' : gmap string string)
    (strategy_path asset_name data_file temp_dir stored path : string),
    fs !! Path_str (Path strategy_path) = Some stored →
    Forall (λ pr, search false pr.1 (universal_newlines stored) = None)
      (patterns_to_replace data_file) →
    _create_strategy_variant parse_template fs strategy_path asset_name data_file temp_dir
    = Return (path, fs') →
    ∃ header rest : list string,
      str_split nl (universal_newlines stored) = header ++ rest
      ∧ Forall (λ line, is_header_line line = true) header
      ∧ (rest = [] ∨ ∃ line rest', rest = line :: rest' ∧ is_header_line line = false)
      ∧ path = Path_str (new_path temp_dir strategy_path asset_name)
      ∧ fs' = <[path :=
                  str_join nl (header ++
                    [ "";
                      "# Data path for " +:+ asset_name
                        +:+ " (injected by Multi-Asset Tester)";
                      "data_path = " +:+ String dquote data_file +:+ String dquote "";
                      "" ] ++ rest)]> fs
      ∧ Forall (λ line, is_header_line line = true)
          (header ++ [ ""; "# Data path for " +:+ asset_name
                             +:+ " (injected by Multi-Asset Tester)" ])
      ∧ is_header_line ("data_path = " +:+ String dquote data_file +:+ String dquote "")
        = false.
Proof.
  intros pt fs fs' sp a dp td stored path Hsrc Hno
    (stored' & text & Hsrc' & Hcode' & -> & ->)%create_returns.
  rewrite Hsrc in Hsrc'. injection Hsrc' as <-.
  destruct (variant_code_injected pt (universal_newlines stored) a dp Hno)
    as (header & rest & Hsplit & Hheader & Hrest & Hcode).
  rewrite Hcode in Hcode'. injection Hcode' as <-.
  exists header, rest.
  split; [exact Hsplit|]. split; [exact Hheader|]. split; [exact Hrest|].
  split; [reflexivity|]. split; [reflexivity|]. split; [|reflexivity].
  apply Forall_app. split; [exact Hheader|]. by repeat constructor.
Qed.

Lemma injection_after_header_witness :
  ∃ header rest : list string,
    str_split nl example_source = header ++ rest
    ∧ Forall (λ line, is_header_line line = true) header
    ∧ (rest = [] ∨ ∃ line rest', rest = line :: rest' ∧ is_header_line line = false)
    ∧ <["/tmp/run/momentum_BTCUSDT.py" :=
          str_join nl (inject (str_split nl example_source) "BTCUSDT"
                         "/data/ohlcv/BTCUSDT.csv")]> example_fs
      = <["/tmp/run/momentum_BTCUSDT.py" :=
            str_join nl (header ++
              [ "";
                "# Data path for " +:+ "BTCUSDT"
                  +:+ " (injected by Multi-Asset Tester)";
                "data_path = " +:+ String dquote "/data/ohlcv/BTCUSDT.csv"
                  +:+ String dquote "";
                "" ] ++ rest)]> example_fs.
Proof.
  destruct (injection_after_header plain_template example_fs
              (<["/tmp/run/momentum_BTCUSDT.py" :=
                   str_join nl (inject (str_split nl example_source) "BTCUSDT"
                                  "/data/ohlcv/BTCUSDT.csv")]> example_fs)
              "/strategies/momentum.py" "BTCUSDT" "/data/ohlcv/BTCUSDT.csv" "/tmp/run"
              example_source "/tmp/run/momentum_BTCUSDT.py")
    as (header & rest & Hsplit & Hheader & Hrest & _ & Hwritten & _).
  - vm_compute. reflexivity.
  - repeat constructor.
  - vm_compute. reflexivity.
  - exists header, rest.
    split; [exact Hsplit|]. split; [exact Hheader|]. split; [exact Hrest|].
    exact Hwritten.
Defined.

(** C7. The content of the variant is a function of the text read from
    the strategy file, the asset and the data path alone: two runs that
    read the same source text and write their variant, whatever the files
    around it, the name of the strategy file and the temporary directory,
    write the same content, namely what [variant_code] returns on the
    three inputs. *)
Theorem variant_content_depends_on_inputs_only :
  ∀ (parse_template : string → outcome (string → string))
    (fs1 fs2 fs1' fs2' : gmap string string)
    (strategy_path1 strategy_path2 temp_dir1 temp_dir2 path1 path2 : string)
    (stored asset_name data_file : string),
    fs1 !! Path_str (Path strategy_path1) = Some stored →
    fs2 !! Path_str (Path strategy_path2) = Some stored →
    _create_strategy_variant parse_template fs1 strategy_path1 asset_name
      data_file temp_dir1 = Return (path1, fs1') →
    _create_strategy_variant parse_template fs2 strategy_path2 asset_name
      data_file temp_dir2 = Return (path2, fs2') →
    fs1' !! path1 = fs2' !! path2
    ∧ ∃ text,
        variant_code parse_template (universal_newlines stored) asset_name data_file
        = Return text
        ∧ fs1' !! path1 = Some text
        ∧ fs2' !! path2 = Some text.
Proof.
  intros pt fs1 fs2 fs1' fs2' sp1 sp2 td1 td2 path1 path2 stored a dp Hs1 Hs2
    (stored1 & text1 & Hsrc1 & Hcode1 & _ & ->)%create_returns
    (stored2 & text2 & Hsrc2 & Hcode2 & _ & ->)%create_returns.
  rewrite Hs1 in Hsrc1. injection Hsrc1 as <-.
  rewrite Hs2 in Hsrc2. injection Hsrc2 as <-.
  rewrite Hcode1 in Hcode2. injection Hcode2 as <-.
  rewrite !lookup_insert_eq. split; [reflexivity|]. by exists text1.
Qed.

Lemma variant_content_depends_on_inputs_only_witness :
  (<["/tmp/run/momentum_BTCUSDT.py" :=
       str_join nl (inject (str_split nl example_source) "BTCUSDT"
                      "/data/ohlcv/BTCUSDT.csv")]> example_fs)
    !! "/tmp/run/momentum_BTCUSDT.py"
  = (<["/var/tmp/other/copy_BTCUSDT.py" :=
         str_join nl (inject (str_split nl example_source) "BTCUSDT"
                        "/data/ohlcv/BTCUSDT.csv")]>
       ({[ "copy.py" := example_source; "notes.txt" := "unrelated" ]}
          : gmap string string))
      !! "/var/tmp/other/copy_BTCUSDT.py".
Proof.
  refine (proj1 (variant_content_depends_on_inputs_only plain_template example_fs
            {[ "copy.py" := example_source; "notes.txt" := "unrelated" ]} _ _
            "/strategies/momentum.py" "copy.py" "/tmp/run" "/var/tmp/other"
            "/tmp/run/momentum_BTCUSDT.py" "/var/tmp/other/copy_BTCUSDT.py"
            example_source "BTCUSDT" "/data/ohlcv/BTCUSDT.csv" _ _ _ _));
    vm_compute; reflexivity.
Defined.

(** An asset with a slash sends the variant to a directory below the
    temporary one; when that directory is not there the call raises. *)
Example slash_asset_is_not_written :
  _create_strategy_variant plain_template example_fs "/strategies/momentum.py"
    "a/b" "/data/ohlcv/BTCUSDT.csv" "/tmp/run"
  = Raise (FileNotFoundError
             "[Errno 2] No such file or directory: '/tmp/run/momentum_a/b.py'").
Proof. vm_compute. reflexivity. Qed.

(** A strategy file with the line ends [\r\n] is read, and its variant
    written, with the line end [\n]. *)
Example carriage_returns_are_not_kept :
  written (_create_strategy_variant plain_template
             {[ "/strategies/momentum.py" :=
                  "import os" +:+ String cr (String nl ("x = 1" +:+ String cr (String nl ""))) ]}
             "/strategies/momentum.py" "BTCUSDT" "/data/ohlcv/BTCUSDT.csv" "/tmp/run")
  = Return (Some (str_join nl
      [ "import os"; "";
        "# Data path for BTCUSDT (injected by Multi-Asset Tester)";
        "data_path = " +:+ String dquote ("/data/ohlcv/BTCUSDT.csv" +:+ String dquote "");
        ""; "x = 1"; "" ])).
Proof. vm_compute. reflexivity. Qed.

Lemma insert_desc_perm (x : TestResult) (l : list TestResult) :
  insert_desc x l ≡ₚ x :: l.
Proof.
  induction l as [|y l IH]; cbn; [reflexivity|].
  destruct (Qle_bool _ _); [reflexivity|].
  rewrite IH. apply perm_swap.
Qed.

Lemma sort_desc_perm (l : list TestResult) : sort_desc l ≡ₚ l.
Proof.
  induction l as [|x l IH]; cbn; [reflexivity|].
  by rewrite insert_desc_perm, IH.
Qed.




(** C8 fails on the code.  A successful test whose console output has a
    Sharpe value and no return gives a result that is ranked; the summary
    then reads [best['metrics']['return']] and ends with [KeyError]
    before any mean is printed. *)
Theorem summary_raises_without_return :
  status (test_strategy_on_asset plain_template
            (runner_success 2 "Sharpe Ratio    1.85") "2025-03-14T10:00:00"
            (example_tester [("BTCUSDT", "/data/ohlcv/BTCUSDT.csv")]) example_fs
            "/strategies/momentum.py" "BTCUSDT" "/data/ohlcv/BTCUSDT.csv" "/tmp/run")
  = "success"
  ∧ metrics (test_strategy_on_asset plain_template
               (runner_success 2 "Sharpe Ratio    1.85") "2025-03-14T10:00:00"
               (example_tester [("BTCUSDT", "/data/ohlcv/BTCUSDT.csv")]) example_fs
               "/strategies/momentum.py" "BTCUSDT" "/data/ohlcv/BTCUSDT.csv" "/tmp/run")
    = {[ "sharpe" := Qred 1.85 ]}
  ∧ length (successful_with_metrics
      [test_strategy_on_asset plain_template
         (runner_success 2 "Sharpe Ratio    1.85") "2025-03-14T10:00:00"
         (example_tester [("BTCUSDT", "/data/ohlcv/BTCUSDT.csv")]) example_fs
         "/strategies/momentum.py" "BTCUSDT" "/data/ohlcv/BTCUSDT.csv" "/tmp/run"])
    = 1
  ∧ print_summary
      [test_strategy_on_asset plain_template
         (runner_success 2 "Sharpe Ratio    1.85") "2025-03-14T10:00:00"
         (example_tester [("BTCUSDT", "/data/ohlcv/BTCUSDT.csv")]) example_fs
         "/strategies/momentum.py" "BTCUSDT" "/data/ohlcv/BTCUSDT.csv" "/tmp/run"]
    = Raise (KeyError "return").
Proof. repeat split; vm_compute; reflexivity. Qed.

(** * Further properties of the code *)

(** ** What the matcher finds is a match *)

Lemma greedy_star_sound {R} (ic : bool) (cs : charset) (k : string → option R)
    (s : string) (res : R) :
  greedy_star ic cs k s = Some res →
  ∃ x s', s = x +:+ s' ∧ run_of ic cs x ∧ k s' = Some res.
Proof.
  induction s as [|c s IH]; cbn [greedy_star].
  - intros H. exists "", "". repeat split; [constructor | exact H].
  - destruct (accepts ic cs c) eqn:Hc.
    + destruct (greedy_star ic cs k s) as [r|] eqn:Hrec.
      * intros [= <-]. destruct (IH eq_refl) as (x & s' & -> & Hrun & Hk).
        exists (String c x), s'. repeat split; [by constructor | exact Hk].
      * intros H. exists "", (String c s). repeat split; [constructor | exact H].
    + intros H. exists "", (String c s). repeat split; [constructor | exact H].
Qed.

Lemma lazy_star_sound {R} (ic : bool) (cs : charset) (k : string → option R)
    (s : string) (res : R) :
  lazy_star ic cs k s = Some res →
  ∃ x s', s = x +:+ s' ∧ run_of ic cs x ∧ k s' = Some res.
Proof.
  induction s as [|c s IH].
  - cbn [lazy_star]. destruct (k "") as [r|] eqn:Hk; [|discriminate].
    intros [= <-]. exists "", "". repeat split; [constructor | exact Hk].
  - cbn [lazy_star]. destruct (k (String c s)) as [r|] eqn:Hk.
    + intros [= <-]. exists "", (String c s). repeat split; [constructor | exact Hk].
    + destruct (accepts ic cs c) eqn:Hc; [|discriminate].
      intros H. destruct (IH H) as (x & s' & -> & Hrun & Hk').
      exists (String c x), s'. repeat split; [by constructor | exact Hk'].
Qed.

Lemma re_match_sound {R} (ic : bool) (r : regex) :
  ∀ (s : string) (g : option string) (k : string → option string → option R) (res : R),
    re_match ic r s g k = Some res →
    ∃ x s' g', s = x +:+ s' ∧ matches ic r x g g' ∧ k s' g' = Some res.
Proof.
  induction r as [|cs|cs|cs|cs|cs|r1 IH1 r2 IH2|r IH]; intros s g k res; cbn [re_match].
  - intros H. exists "", s, g. repeat split; [constructor | exact H].
  - destruct s as [|c s]; [discriminate|].
    destruct (accepts ic cs c) eqn:Hc; [|discriminate].
    intros H. exists (String c ""), s, g. repeat split; [by constructor | exact H].
  - destruct s as [|c s].
    + intros H. exists "", "", g. repeat split; [constructor | exact H].
    + destruct (accepts ic cs c) eqn:Hc.
      * destruct (k s g) as [r|] eqn:Hk.
        -- intros [= <-]. exists (String c ""), s, g.
           repeat split; [by constructor | exact Hk].
        -- intros H. exists "", (String c s), g. repeat split; [constructor | exact H].
      * intros H. exists "", (String c s), g. repeat split; [constructor | exact H].
  - intros (x & s' & -> & Hrun & Hk)%greedy_star_sound.
    exists x, s', g. repeat split; [by constructor | exact Hk].
  - destruct s as [|c s]; [discriminate|].
    destruct (accepts ic cs c) eqn:Hc; [|discriminate].
    intros (x & s' & -> & Hrun & Hk)%greedy_star_sound.
    exists (String c x), s', g. repeat split; [by constructor | exact Hk].
  - intros (x & s' & -> & Hrun & Hk)%lazy_star_sound.
    exists x, s', g. repeat split; [by constructor | exact Hk].
  - intros (x & s1 & g1 & -> & Hm1 & H2)%IH1.
    apply IH2 in H2 as (y & s2 & g2 & -> & Hm2 & Hk).
    exists (x +:+ y), s2, g2. repeat split.
    + by rewrite append_assoc.
    + by econstructor.
    + exact Hk.
  - intros (x & s' & g1 & -> & Hm & Hk)%IH.
    exists x, s', (Some x). repeat split; [by econstructor|].
    rewrite length_append in Hk.
    replace (String.length x + String.length s' - String.length s')
      with (String.length x) in Hk by lia.
    by rewrite string_take_append in Hk.
Qed.

Lemma search_sound (ic : bool) (r : regex) (text : string) (m : Match) :
  search ic r text = Some m → ∃ x, matches ic r x None (group1 m).
Proof.
  unfold search. generalize 0. induction text as [|c text IH]; intros pos;
    cbn [search_from]; unfold match_at.
  - destruct (re_match _ _ _ _ _) as [m'|] eqn:Hm; [|discriminate].
    intros [= <-]. apply re_match_sound in Hm as (x & s' & g' & _ & Hx & [= <-]).
    by exists x.
  - destruct (re_match _ _ _ _ _) as [m'|] eqn:Hm.
    + intros [= <-]. apply re_match_sound in Hm as (x & s' & g' & _ & Hx & [= <-]).
      by exists x.
    + apply IH.
Qed.

Lemma matches_group_of (ic : bool) (r : regex) (x : string) (g g' : option string) :
  matches ic r x g g' →
  match group_of r with
  | Some r0 => ∃ y gi gi', g' = Some y ∧ matches ic r0 y gi gi'
  | None => g' = g
  end.
Proof.
  induction 1 as [| | | | | | |r1 r2 x y g g1 g2 _ IH1 _ IH2|r x g g1 Hm _];
    cbn [group_of]; try reflexivity.
  - destruct (group_of r2); [exact IH2|].
    subst g2. exact IH1.
  - by exists x, g, g1.
Qed.

(** ** Every captured group reads as a number *)

Lemma sign_char (c : ascii) :
  existsb (same_char true c) ["+"; "-"]%char = true → c = "+"%char ∨ c = "-"%char.
Proof.
  destruct c as [[] [] [] [] [] [] [] []]; vm_compute; intros H;
    first [discriminate | by left | by right].
Qed.

Lemma dot_char (c : ascii) : same_char true "." c = true → c = "."%char.
Proof.
  destruct c as [[] [] [] [] [] [] [] []]; vm_compute; intros H;
    first [discriminate | reflexivity].
Qed.

Lemma digit_not_sign (c : ascii) :
  isdigit c = true →
  Ascii.eqb c "-" = false ∧ Ascii.eqb c "+" = false ∧ (0 ≤ digit_value c)%Z.
Proof.
  destruct c as [[] [] [] [] [] [] [] []]; vm_compute; intros H;
    first [discriminate | repeat split; discriminate].
Qed.

Lemma read_digits_run (ds rest : string) (acc : Z) (n : nat) :
  run_of true Digit ds →
  (rest = "" ∨ ∃ c r, rest = String c r ∧ isdigit c = false) →
  ∃ acc', read_digits (ds +:+ rest) acc n = (acc', n + String.length ds, rest)
          ∧ ((0 ≤ acc)%Z → (0 ≤ acc')%Z).
Proof.
  intros Hrun Hrest. revert acc n.
  induction Hrun as [|c x Hc _ IH]; intros acc n.
  - exists acc. split; [|done].
    destruct Hrest as [->|(c & r & -> & Hc)].
    + cbn [String.length]. by rewrite Nat.add_0_r.
    + change ("" +:+ String c r) with (String c r). cbn [read_digits String.length].
      by rewrite Hc, Nat.add_0_r.
  - change (isdigit c = true) in Hc.
    change (String c x +:+ rest) with (String c (x +:+ rest)).
    cbn [read_digits]. rewrite Hc.
    destruct (IH (10 * acc + digit_value c)%Z (S n)) as (acc' & -> & Hpos).
    exists acc'. split; [f_equal; f_equal; cbn; lia|].
    intros Hacc. apply Hpos. destruct (digit_not_sign c Hc) as (_ & _ & Hd). lia.
Qed.

Lemma append_nil_r (s : string) : s +:+ "" = s.
Proof.
  induction s as [|c s IH]; [reflexivity|].
  change (String c s +:+ "") with (String c (s +:+ "")). by rewrite IH.
Qed.

Lemma read_digits_all (ds : string) (acc : Z) (n : nat) :
  run_of true Digit ds →
  ∃ acc', read_digits ds acc n = (acc', n + String.length ds, "")
          ∧ ((0 ≤ acc)%Z → (0 ≤ acc')%Z).
Proof.
  intros Hrun.
  destruct (read_digits_run ds "" acc n Hrun (or_introl eq_refl)) as (acc' & H & Hpos).
  rewrite append_nil_r in H. by exists acc'.
Qed.

(** The text of a number, as the groups of the patterns match it. *)
Lemma parse_decimal_number (sgn d_ds dot ds2 : string) :
  sgn = "" ∨ sgn = "+" ∨ sgn = "-" →
  (∃ d ds, d_ds = String d ds ∧ isdigit d = true ∧ run_of true Digit ds) →
  dot = "" ∨ dot = "." →
  run_of true Digit ds2 →
  ∃ q, parse_decimal (((sgn +:+ d_ds) +:+ dot) +:+ ds2) = Some q
       ∧ (sgn = "" → (0 <= q)%Q).
Proof.
  intros Hsgn (d & ds & -> & Hd & Hds) Hdot Hds2.
  destruct (digit_not_sign d Hd) as (Hminus & Hplus & _).
  assert (run_of true Digit (String d ds)) as Hrun1 by (by constructor).
  assert (∀ negative : bool,
            ∃ q, (let '(int_part, n_int, s2) :=
                    read_digits ((String d ds +:+ dot) +:+ ds2) 0%Z 0 in
                  let '(mantissa, n_frac, s3) :=
                    match s2 with
                    | String c s2' =>
                        if Ascii.eqb c "." then read_digits s2' int_part 0
                        else (int_part, 0, s2)
                    | "" => (int_part, 0, s2)
                    end in
                  if negb (String.eqb s3 "") then None
                  else if (n_int + n_frac =? 0)%nat then None
                  else
                    let q := Qmake mantissa (Pos.pow 10 (Pos.of_nat n_frac)) in
                    let q := if (n_frac =? 0)%nat then Qmake mantissa 1 else q in
                    Some (Qred (if negative then Qopp q else q))) = Some q
                 ∧ (negative = false → (0 <= q)%Q)) as Hbody.
  { intros negative. destruct Hdot as [->| ->].
    - assert (run_of true Digit (String d ds +:+ ds2)) as Hrun.
      { clear -Hrun1 Hds2. induction Hrun1; [exact Hds2|].
        change (String c x +:+ ds2) with (String c (x +:+ ds2)). by constructor. }
      rewrite (append_nil_r (String d ds)).
      destruct (read_digits_all (String d ds +:+ ds2) 0 0 Hrun) as (acc & -> & Hpos).
      cbn [negb String.eqb]. rewrite length_append. cbn [String.length].
      eexists. split; [reflexivity|].
      intros ->. rewrite Qred_correct. specialize (Hpos ltac:(lia)).
      cbn [Nat.eqb]. unfold Qle. cbn [Qnum Qden]. lia.
    - rewrite append_assoc. change ("." +:+ ds2) with (String "." ds2).
      destruct (read_digits_run (String d ds) (String "." ds2) 0 0 Hrun1) as (acc & -> & Hpos).
      { right. by exists "."%char, ds2. }
      cbn [Ascii.eqb Bool.eqb]. cbn match.
      destruct (read_digits_all ds2 acc 0 Hds2) as (acc2 & -> & Hpos2).
      cbn [negb String.eqb String.length Nat.add Nat.eqb].
      eexists. split; [reflexivity|].
      intros ->. rewrite Qred_correct. specialize (Hpos ltac:(lia)). specialize (Hpos2 Hpos).
      destruct (String.length ds2 =? 0)%nat; unfold Qle; cbn [Qnum Qden]; lia. }
  rewrite !append_assoc. rewrite <- (append_assoc (String d ds) dot ds2).
  destruct Hsgn as [->|[->| ->]].
  - destruct (Hbody false) as (q & Hq & Hpos). exists q. split; [|auto].
    unfold parse_decimal.
    change ("" +:+ (String d ds +:+ dot) +:+ ds2)
      with (String d ((ds +:+ dot) +:+ ds2)).
    assert (read_sign (String d ((ds +:+ dot) +:+ ds2))
            = (false, String d ((ds +:+ dot) +:+ ds2))) as ->
      by (cbn [read_sign]; by rewrite Hminus, Hplus).
    exact Hq.
  - destruct (Hbody false) as (q & Hq & _). exists q. split; [exact Hq | discriminate].
  - destruct (Hbody true) as (q & Hq & _). exists q. split; [exact Hq | discriminate].
Qed.

Ltac invert_matches :=
  repeat match goal with
         | H : matches _ (Seq _ _) _ _ _ |- _ => inversion H; subst; clear H
         | H : matches _ (Opt _) _ _ _ |- _ => inversion H; subst; clear H
         | H : matches _ (Plus _) _ _ _ |- _ => inversion H; subst; clear H
         | H : matches _ (Star _) _ _ _ |- _ => inversion H; subst; clear H
         end.

Lemma signed_number_parses (y : string) (gi go : option string) :
  matches true signed_number y gi go → ∃ q, parse_decimal y = Some q.
Proof.
  unfold signed_number. intros H. invert_matches.
  all: match goal with
       | |- ∃ q, parse_decimal (((?sgn +:+ ?d_ds) +:+ ?dot) +:+ ?ds2) = Some q =>
           destruct (parse_decimal_number sgn d_ds dot ds2) as (q & Hq & _)
       end; eauto.
  all: try solve [right; match goal with
                          | H : accepts true (OneOf _) _ = true |- _ =>
                              destruct (sign_char _ H) as [-> | ->]; auto
                          end].
  all: right; match goal with
              | H : accepts true (Lit _) _ = true |- _ => by rewrite (dot_char _ H)
              end.
Qed.

Lemma unsigned_number_parses (y : string) (gi go : option string) :
  matches true unsigned_number y gi go ∨ matches true (Plus Digit) y gi go →
  ∃ q, parse_decimal y = Some q ∧ (0 <= q)%Q.
Proof.
  intros [H|H].
  - unfold unsigned_number in H. invert_matches.
    all: match goal with
         | |- ∃ q, parse_decimal ((?d_ds +:+ ?dot) +:+ ?ds2) = Some q ∧ _ =>
             destruct (parse_decimal_number "" d_ds dot ds2) as (q & Hq & Hpos)
         end; eauto.
    right. match goal with
           | H : accepts true (Lit _) _ = true |- _ => by rewrite (dot_char _ H)
           end.
  - inversion H as [| | | | |cs c x g Hc Hrun| | |]; subst.
    destruct (parse_decimal_number "" (String c x) "" "") as (q & Hq & Hpos); eauto.
    + constructor.
    + rewrite !append_nil_r in Hq. eauto.
Qed.

Lemma found_group_converts (text name : string) (pattern_list : list regex)
    (p : regex) (m : Match) :
  assoc name patterns = Some pattern_list →
  p ∈ pattern_list →
  search true p text = Some m →
  ∃ num q, group1 m = Some num ∧ parse_decimal num = Some q
           ∧ (name = "trades" ∨ name = "win_rate" → (0 <= q)%Q).
Proof.
  intros Hassoc Hp Hsearch.
  apply search_sound in Hsearch as (x & Hx).
  apply matches_group_of in Hx.
  unfold patterns in Hassoc. cbn [assoc] in Hassoc.
  repeat match type of Hassoc with
         | (if String.eqb ?k name then _ else _) = _ =>
             destruct (String.eqb_spec k name) as [<-|?]
         end; try discriminate.
  all: injection Hassoc as <-.
  all: repeat (apply elem_of_cons in Hp as [->|Hp]); [..|by apply elem_of_nil in Hp].
  all: cbn in Hx; destruct Hx as (y & gi & go & -> & Hy).
  all: first
    [ destruct (unsigned_number_parses y gi go) as (q & Hq & Hpos);
      [by (left + right) | exists y, q; by repeat split]
    | destruct (signed_number_parses y gi go Hy) as (q & Hq);
      exists y, q; repeat split; [exact Hq | intros [?|?]; discriminate] ].
Qed.

Lemma first_value_elem (text : string) (pattern_list : list regex) (v : Q) :
  first_value text pattern_list = Some v →
  ∃ p, p ∈ pattern_list ∧ pattern_value text p = Some v.
Proof.
  induction pattern_list as [|p pl IH]; cbn [first_value]; [discriminate|].
  destruct (pattern_value text p) as [v'|] eqn:Hp.
  - intros [= ->]. exists p. split; [left | exact Hp].
  - intros (q & Hq & Hv)%IH. exists q. split; [by right | exact Hv].
Qed.

Lemma assoc_Some_key {A} (key : string) (items : list (string * A)) (v : A) :
  assoc key items = Some v → (key, v) ∈ items.
Proof.
  induction items as [|[k a] items IH]; cbn [assoc]; [discriminate|].
  destruct (String.eqb_spec k key) as [->|_].
  - intros [= ->]. left.
  - intros H. right. by apply IH.
Qed.

(** X1. Whenever a pattern of the table is found in a text, its group
    converts to a number: on a text the [except] of the extraction loop is
    never taken, and a found pattern always yields a value. *)
Theorem found_pattern_yields_value :
  ∀ (text name : string) (pattern_list : list regex) (p : regex),
    assoc name patterns = Some pattern_list →
    p ∈ pattern_list →
    is_Some (search true p text) →
    is_Some (pattern_value text p).
Proof.
  intros text name pl p Hassoc Hp [m Hm].
  destruct (found_group_converts text name pl p m Hassoc Hp Hm) as (num & q & Hg & Hq & _).
  unfold pattern_value, float_. rewrite Hm, Hg, Hq. by eexists.
Qed.

Lemma found_pattern_yields_value_witness :
  is_Some (pattern_value "Sharpe Ratio  -0.75"
             (lit "Sharpe Ratio" ;;; Star Space ;;; Group signed_number)).
Proof.
  apply (found_pattern_yields_value "Sharpe Ratio  -0.75" "sharpe"
           [ lit "Sharpe Ratio" ;;; Star Space ;;; Group signed_number;
             lit "Sharpe" ;;; Star Space ;;; Group signed_number ]).
  - reflexivity.
  - left.
  - vm_compute. by eexists.
Defined.

(** X2. The extracted [trades] and [win_rate] are never negative: their
    patterns capture digits without a sign. *)
Theorem trades_and_win_rate_not_negative :
  ∀ (text name : string) (metrics : gmap string Q) (v : Q),
    _parse_backtest_output (PyStr text) = Return metrics →
    name = "trades" ∨ name = "win_rate" →
    metrics !! name = Some v →
    (0 <= v)%Q.
Proof.
  intros text name metrics v Hparse Hname Hv.
  destruct (parse_backtest_output_spec text) as (metrics' & Hrun & Hlook).
  rewrite Hrun in Hparse. injection Hparse as <-.
  rewrite Hlook in Hv. unfold extract_spec in Hv.
  destruct (assoc name patterns) as [pl|] eqn:Hassoc; [|discriminate].
  apply first_value_elem in Hv as (p & Hp & Hv).
  unfold pattern_value in Hv.
  destruct (search true p text) as [m|] eqn:Hm; [|discriminate].
  destruct (found_group_converts text name pl p m Hassoc Hp Hm)
    as (num & q & Hg & Hq & Hpos).
  unfold float_ in Hv. rewrite Hg, Hq in Hv. injection Hv as <-. by apply Hpos.
Qed.

Lemma trades_and_win_rate_not_negative_witness : (0 <= Qred 42)%Q.
Proof.
  apply (trades_and_win_rate_not_negative "# Trades   42" "trades"
           {[ "trades" := Qred 42 ]} (Qred 42)).
  - vm_compute. reflexivity.
  - by left.
  - vm_compute. reflexivity.
Defined.

(** X3. The keys of the extracted dictionary are among the five metric
    names of the table. *)
Theorem extracted_keys_are_metric_names :
  ∀ (text name : string) (metrics : gmap string Q),
    _parse_backtest_output (PyStr text) = Return metrics →
    is_Some (metrics !! name) →
    name ∈ ["return"; "sharpe"; "max_drawdown"; "trades"; "win_rate"].
Proof.
  intros text name metrics Hparse [v Hv].
  destruct (parse_backtest_output_spec text) as (metrics' & Hrun & Hlook).
  rewrite Hrun in Hparse. injection Hparse as <-.
  rewrite Hlook in Hv. unfold extract_spec in Hv.
  destruct (assoc name patterns) as [pl|] eqn:Hassoc; [|discriminate].
  apply assoc_Some_key in Hassoc.
  change ["return"; "sharpe"; "max_drawdown"; "trades"; "win_rate"] with patterns.*1.
  apply list_elem_of_fmap. by exists (name, pl).
Qed.

Lemma extracted_keys_are_metric_names_witness :
  "sharpe" ∈ ["return"; "sharpe"; "max_drawdown"; "trades"; "win_rate"].
Proof.
  apply (extracted_keys_are_metric_names Scenario_D_stdout "sharpe"
           {[ "sharpe" := Qred 1.85; "return" := Qred 12.40 ]}).
  - vm_compute. reflexivity.
  - vm_compute. by eexists.
Defined.

(** ** More on one test *)

(** X4. Whatever happens in a test, its result carries the identity of the
    task: the base name of the strategy file, the asset, the data path and
    the time stamp taken at the start. *)
Theorem result_identifies_its_task :
  ∀ (parse_template : string → outcome (string → string))
    (run_backtest_in_conda : gmap string string → string → string → runner_call)
    (now : string) (self : MultiAssetTester) (fs : gmap string string)
    (strategy_path asset_name data_file temp_dir : string),
    strategy (test_strategy_on_asset parse_template run_backtest_in_conda now
                self fs strategy_path asset_name data_file temp_dir)
    = Path_stem (Path strategy_path)
    ∧ asset (test_strategy_on_asset parse_template run_backtest_in_conda now
               self fs strategy_path asset_name data_file temp_dir) = asset_name
    ∧ data_path (test_strategy_on_asset parse_template run_backtest_in_conda now
                   self fs strategy_path asset_name data_file temp_dir) = data_file
    ∧ timestamp (test_strategy_on_asset parse_template run_backtest_in_conda now
                   self fs strategy_path asset_name data_file temp_dir) = now.
Proof.
  intros pt run now self fs sp a dp td. unfold test_strategy_on_asset.
  destruct (_create_strategy_variant _ _ _ _ _ _) as [[variant fs']|e]; [|done].
  destruct (reply _) as [backtest_result|e]; [|done].
  destruct (truthy _); [|done].
  destruct (_parse_backtest_output _); done.
Qed.

(** X5. A result with status ['success'] has no error, keeps the console
    output of the runner as a text, and its metrics are what the extractor
    gives on that stored text: they can be recomputed from the result. *)
Theorem success_metrics_match_stored_stdout :
  ∀ (parse_template : string → outcome (string → string))
    (run_backtest_in_conda : gmap string string → string → string → runner_call)
    (now : string) (self : MultiAssetTester) (fs : gmap string string)
    (strategy_path asset_name data_file temp_dir : string),
    status (test_strategy_on_asset parse_template run_backtest_in_conda now
              self fs strategy_path asset_name data_file temp_dir) = "success" →
    error (test_strategy_on_asset parse_template run_backtest_in_conda now
             self fs strategy_path asset_name data_file temp_dir) = PyNone
    ∧ ∃ text,
        stdout (test_strategy_on_asset parse_template run_backtest_in_conda now
                  self fs strategy_path asset_name data_file temp_dir)
        = Some (PyStr text)
        ∧ _parse_backtest_output (PyStr text)
          = Return (metrics (test_strategy_on_asset parse_template
                               run_backtest_in_conda now self fs strategy_path
                               asset_name data_file temp_dir)).
Proof.
  intros pt run now self fs sp a dp td. unfold test_strategy_on_asset.
  destruct (_create_strategy_variant _ _ _ _ _ _) as [[variant fs']|e];
    [|discriminate].
  destruct (reply _) as [backtest_result|e]; [|discriminate].
  destruct (truthy _); [|discriminate].
  destruct (dict_get backtest_result "stdout" (PyStr "")) as [| | |text] eqn:Hout;
    try discriminate.
  destruct (_parse_backtest_output (PyStr text)) as [m|e] eqn:Hparse; [|discriminate].
  intros _. cbn. split; [reflexivity|]. by exists text.
Qed.

Lemma success_metrics_match_stored_stdout_witness :
  error (test_strategy_on_asset plain_template
           (runner_success 2 Scenario_D_stdout) "2025-03-14T10:00:00"
           (example_tester [("BTCUSDT", "/data/ohlcv/BTCUSDT.csv")]) example_fs
           "/strategies/momentum.py" "BTCUSDT" "/data/ohlcv/BTCUSDT.csv" "/tmp/run")
  = PyNone.
Proof.
  apply (success_metrics_match_stored_stdout plain_template
           (runner_success 2 Scenario_D_stdout) "2025-03-14T10:00:00"
           (example_tester [("BTCUSDT", "/data/ohlcv/BTCUSDT.csv")]) example_fs
           "/strategies/momentum.py" "BTCUSDT" "/data/ohlcv/BTCUSDT.csv" "/tmp/run").
  vm_compute. reflexivity.
Defined.

(** X6. When the runner returns a dictionary whose [success] is missing or
    false, the result has status ['failed'], the runner's [error] (or
    ['Unknown error'] when it gives none), its [stderr], the time the call
    took, no metrics and no [stdout] key. *)
Theorem runner_failure_is_recorded :
  ∀ (parse_template : string → outcome (string → string))
    (run_backtest_in_conda : gmap string string → string → string → runner_call)
    (now : string) (self : MultiAssetTester) (fs fs' : gmap string string)
    (strategy_path asset_name data_file temp_dir variant : string)
    (backtest_result : gmap string pyval),
    _create_strategy_variant parse_template fs strategy_path asset_name data_file temp_dir
    = Return (variant, fs') →
    reply (run_backtest_in_conda fs' variant (conda_env self))
    = RunnerReturns backtest_result →
    truthy (dict_get backtest_result "success" PyNone) = false →
    test_strategy_on_asset parse_template run_backtest_in_conda now
      self fs strategy_path asset_name data_file temp_dir
    = {| strategy := Path_stem (Path strategy_path); asset := asset_name;
         data_path := data_file; status := "failed";
         error := match backtest_result !! "error" with
                  | Some v => v
                  | None => PyStr "Unknown error"
                  end;
         metrics := ∅;
         execution_time := elapsed (run_backtest_in_conda fs' variant (conda_env self));
         timestamp := now; stdout := None;
         stderr := Some match backtest_result !! "stderr" with
                        | Some v => v
                        | None => PyStr ""
                        end |}.
Proof.
  intros pt run now self fs fs' sp a dp td variant d Hcreate Hreply Hfalse.
  unfold test_strategy_on_asset. by rewrite Hcreate, Hreply, Hfalse.
Qed.

Lemma runner_failure_is_recorded_witness :
  error (test_strategy_on_asset plain_template
           (runner_failure 2 "division by zero") "2025-03-14T10:00:00"
           (example_tester [("BTCUSDT", "/data/ohlcv/BTCUSDT.csv")]) example_fs
           "/strategies/momentum.py" "BTCUSDT" "/data/ohlcv/BTCUSDT.csv" "/tmp/run")
  = PyStr "division by zero".
Proof.
  rewrite (runner_failure_is_recorded plain_template
             (runner_failure 2 "division by zero") "2025-03-14T10:00:00"
             (example_tester [("BTCUSDT", "/data/ohlcv/BTCUSDT.csv")]) example_fs
             (<["/tmp/run/momentum_BTCUSDT.py" :=
                  str_join nl (inject (str_split nl example_source) "BTCUSDT"
                                 "/data/ohlcv/BTCUSDT.csv")]> example_fs)
             "/strategies/momentum.py" "BTCUSDT" "/data/ohlcv/BTCUSDT.csv" "/tmp/run"
             "/tmp/run/momentum_BTCUSDT.py"
             {[ "success" := PyBool false; "error" := PyStr "division by zero";
                "stderr" := PyStr "division by zero" ]}).
  - vm_compute. reflexivity.
  - vm_compute. reflexivity.
  - reflexivity.
  - vm_compute. reflexivity.
Defined.

(** X7. When the variant cannot be created (the strategy file cannot be
    read, the temporary directory is a file, the replacement template is
    rejected) the runner is not called: the result has status ['error'],
    the text of the exception as its error, no metrics, and is the same
    whatever the runner would do. *)
Theorem variant_failure_is_an_error_result :
  ∀ (parse_template : string → outcome (string → string))
    (run1 run2 : gmap string string → string → string → runner_call)
    (now : string) (self : MultiAssetTester) (fs : gmap string string)
    (strategy_path asset_name data_file temp_dir : string) (e : exn),
    _create_strategy_variant parse_template fs strategy_path asset_name data_file temp_dir
    = Raise e →
    status (test_strategy_on_asset parse_template run1 now
              self fs strategy_path asset_name data_file temp_dir) = "error"
    ∧ error (test_strategy_on_asset parse_template run1 now
               self fs strategy_path asset_name data_file temp_dir) = PyStr (str_exn e)
    ∧ metrics (test_strategy_on_asset parse_template run1 now
                 self fs strategy_path asset_name data_file temp_dir) = ∅
    ∧ test_strategy_on_asset parse_template run1 now
        self fs strategy_path asset_name data_file temp_dir
      = test_strategy_on_asset parse_template run2 now
          self fs strategy_path asset_name data_file temp_dir.
Proof.
  intros pt run1 run2 now self fs sp a dp td e Hcreate.
  unfold test_strategy_on_asset. by rewrite Hcreate.
Qed.

Lemma variant_failure_is_an_error_result_witness :
  status (test_strategy_on_asset plain_template
            (runner_success 2 Scenario_D_stdout) "2025-03-14T10:00:00"
            (example_tester [("BTCUSDT", "/data/ohlcv/BTCUSDT.csv")]) example_fs
            "/strategies/missing.py" "BTCUSDT" "/data/ohlcv/BTCUSDT.csv" "/tmp/run")
  = "error".
Proof.
  refine (proj1 (variant_failure_is_an_error_result plain_template
            (runner_success 2 Scenario_D_stdout) (runner_failure 2 "x")
            "2025-03-14T10:00:00"
            (example_tester [("BTCUSDT", "/data/ohlcv/BTCUSDT.csv")]) example_fs
            "/strategies/missing.py" "BTCUSDT" "/data/ohlcv/BTCUSDT.csv" "/tmp/run"
            (FileNotFoundError
               "[Errno 2] No such file or directory: '/strategies/missing.py'") _)).
  vm_compute. reflexivity.
Defined.

Lemma parse_non_text (out : pyval) :
  (∀ text, out ≠ PyStr text) → ∃ e, _parse_backtest_output out = Raise e.
Proof.
  intros Hnot. destruct out as [|b|z|text]; [| | |by destruct (Hnot text)];
    by eexists.
Qed.

(** X8. When the runner reports success but its [stdout] is not a text,
    searching it raises inside the [try]: the status already set to
    ['success'] is replaced by ['error'], the metrics stay empty, and the
    [stdout] and [stderr] stored before the failure stay in the result. *)
Theorem non_text_stdout_is_an_error_result :
  ∀ (parse_template : string → outcome (string → string))
    (run_backtest_in_conda : gmap string string → string → string → runner_call)
    (now : string) (self : MultiAssetTester) (fs fs' : gmap string string)
    (strategy_path asset_name data_file temp_dir variant : string)
    (backtest_result : gmap string pyval) (out : pyval),
    _create_strategy_variant parse_template fs strategy_path asset_name data_file temp_dir
    = Return (variant, fs') →
    reply (run_backtest_in_conda fs' variant (conda_env self))
    = RunnerReturns backtest_result →
    truthy (dict_get backtest_result "success" PyNone) = true →
    backtest_result !! "stdout" = Some out →
    (∀ text, out ≠ PyStr text) →
    status (test_strategy_on_asset parse_template run_backtest_in_conda now
              self fs strategy_path asset_name data_file temp_dir) = "error"
    ∧ metrics (test_strategy_on_asset parse_template run_backtest_in_conda now
                 self fs strategy_path asset_name data_file temp_dir) = ∅
    ∧ stdout (test_strategy_on_asset parse_template run_backtest_in_conda now
                self fs strategy_path asset_name data_file temp_dir) = Some out
    ∧ is_Some (stderr (test_strategy_on_asset parse_template run_backtest_in_conda now
                         self fs strategy_path asset_name data_file temp_dir))
    ∧ ∃ e, _parse_backtest_output out = Raise e
           ∧ error (test_strategy_on_asset parse_template run_backtest_in_conda now
                      self fs strategy_path asset_name data_file temp_dir)
             = PyStr (str_exn e).
Proof.
  intros pt run now self fs fs' sp a dp td variant d out Hcreate Hreply Htrue Hout Hnot.
  assert (dict_get d "stdout" (PyStr "") = out) as Hget
    by (unfold dict_get; by rewrite Hout).
  destruct (parse_non_text out Hnot) as (e & He).
  unfold test_strategy_on_asset. rewrite Hcreate, Hreply, Htrue, !Hget, He.
  cbn. repeat split; eauto.
Qed.

Lemma non_text_stdout_is_an_error_result_witness :
  status (test_strategy_on_asset plain_template
            (λ _ _ _, {| reply := RunnerReturns {[ "success" := PyBool true;
                                                   "stdout" := PyNone ]};
                         elapsed := 2 |})
            "2025-03-14T10:00:00"
            (example_tester [("BTCUSDT", "/data/ohlcv/BTCUSDT.csv")]) example_fs
            "/strategies/momentum.py" "BTCUSDT" "/data/ohlcv/BTCUSDT.csv" "/tmp/run")
  = "error".
Proof.
  refine (proj1 (non_text_stdout_is_an_error_result plain_template
            (λ _ _ _, {| reply := RunnerReturns {[ "success" := PyBool true;
                                                   "stdout" := PyNone ]};
                         elapsed := 2 |})
            "2025-03-14T10:00:00"
            (example_tester [("BTCUSDT", "/data/ohlcv/BTCUSDT.csv")]) example_fs
            (<["/tmp/run/momentum_BTCUSDT.py" :=
                 str_join nl (inject (str_split nl example_source) "BTCUSDT"
                                "/data/ohlcv/BTCUSDT.csv")]> example_fs)
            "/strategies/momentum.py" "BTCUSDT" "/data/ohlcv/BTCUSDT.csv" "/tmp/run"
            "/tmp/run/momentum_BTCUSDT.py"
            {[ "success" := PyBool true; "stdout" := PyNone ]} PyNone _ _ _ _ _)).
  - vm_compute. reflexivity.
  - reflexivity.
  - reflexivity.
  - vm_compute. reflexivity.
  - intros text. discriminate.
Defined.

(** ** Splitting and joining, and paths back from their text *)

Lemma str_split_nonempty (sep : ascii) (s : string) : str_split sep s ≠ [].
Proof.
  destruct s as [|c s]; cbn [str_split]; [discriminate|].
  destruct (Ascii.eqb c sep); [discriminate|].
  destruct (str_split sep s); discriminate.
Qed.

Lemma str_join_split (sep : ascii) (s : string) : str_join sep (str_split sep s) = s.
Proof.
  induction s as [|c s IH]; [reflexivity|]. cbn [str_split].
  destruct (Ascii.eqb_spec c sep) as [->|Hc].
  - rewrite str_join_cons by apply str_split_nonempty. by rewrite IH.
  - destruct (str_split sep s) as [|l ls] eqn:Hsplit.
    + by destruct (str_split_nonempty sep s).
    + destruct ls as [|l' ls].
      * cbn [str_join] in *. by rewrite IH.
      * rewrite str_join_cons in * by discriminate.
        change (String c l +:+ String sep (str_join sep (l' :: ls)))
          with (String c (l +:+ String sep (str_join sep (l' :: ls)))).
        by rewrite IH.
Qed.







(** A name is its stem followed by its suffix, and the suffix is empty or
    starts with a dot. *)
Lemma string_take_drop (n : nat) (s : string) : string_take n s +:+ string_drop n s = s.
Proof.
  revert n. induction s as [|c s IH]; intros [|n]; try reflexivity.
  cbn [string_take string_drop].
  change (String c (string_take n s) +:+ string_drop n s)
    with (String c (string_take n s +:+ string_drop n s)).
  by rewrite IH.
Qed.

Lemma rfind_char (c : ascii) (s : string) (i : nat) :
  rfind c s = Some i → ∃ t, string_drop i s = String c t.
Proof.
  revert i. induction s as [|a s IH]; intros i; cbn [rfind]; [discriminate|].
  destruct (rfind c s) as [j|] eqn:Hr.
  - intros [= <-]. cbn [string_drop]. by apply IH.
  - destruct (Ascii.eqb_spec a c) as [->|_]; [|discriminate].
    intros [= <-]. by exists s.
Qed.

Lemma stem_suffix (p : PurePath) :
  Path_name p = Path_stem p +:+ Path_suffix p
  ∧ (Path_suffix p = "" ∨ ∃ t, Path_suffix p = String "." t).
Proof.
  unfold Path_stem, Path_suffix, suffix_index.
  destruct (rfind "." (Path_name p)) as [i|] eqn:Hr.
  - destruct (_ && _).
    + split; [by rewrite string_take_drop|]. right. by apply rfind_char.
    + split; [by rewrite append_nil_r | by left].
  - split; [by rewrite append_nil_r | by left].
Qed.


(** A text without a carriage return is read as it is. *)
Lemma universal_newlines_id (s : string) :
  has_char cr s = false → universal_newlines s = s.
Proof.
  induction s as [|c s IH]; [reflexivity|].
  cbn [has_char universal_newlines]. intros [Hc Hs]%orb_false_iff.
  rewrite Hc. by rewrite IH.
Qed.


(** ** More on the variant generator *)



(** X10. The injection loses nothing: when no pattern is found, taking the
    four injected lines out of a variant that was written gives back the
    text that was read, and for a strategy file without a carriage return
    that is the content of the file, character for character. *)
Theorem injection_is_lossless :
  ∀ (parse_template : string → outcome (string → string)) (fs fs' : gmap string string)
    (strategy_path asset_name data_file temp_dir stored path : string),
    fs !! Path_str (Path strategy_path) = Some stored →
    Forall (λ pr, search false pr.1 (universal_newlines stored) = None)
      (patterns_to_replace data_file) →
    _create_strategy_variant parse_template fs strategy_path asset_name data_file temp_dir
    = Return (path, fs') →
    ∃ header rest : list string,
      universal_newlines stored = str_join nl (header ++ rest)
      ∧ (has_char cr stored = false → stored = str_join nl (header ++ rest))
      ∧ fs' !! path
        = Some (str_join nl (header ++
                  [ "";
                    "# Data path for " +:+ asset_name
                      +:+ " (injected by Multi-Asset Tester)";
                    "data_path = " +:+ String dquote data_file +:+ String dquote "";
                    "" ] ++ rest)).
Proof.
  intros pt fs fs' sp a dp td stored path Hsrc Hno
    (stored' & text & Hsrc' & Hcode' & -> & ->)%create_returns.
  rewrite Hsrc in Hsrc'. injection Hsrc' as <-.
  destruct (variant_code_injected pt (universal_newlines stored) a dp Hno)
    as (header & rest & Hsplit & _ & _ & Hcode).
  rewrite Hcode in Hcode'. injection Hcode' as <-.
  exists header, rest.
  assert (universal_newlines stored = str_join nl (header ++ rest)) as Hread
    by (by rewrite <- Hsplit, str_join_split).
  split; [exact Hread|]. split.
  - intros Hcr. by rewrite <- Hread, universal_newlines_id.
  - by rewrite lookup_insert_eq.
Qed.

Lemma injection_is_lossless_witness :
  ∃ header rest : list string,
    example_source = str_join nl (header ++ rest)
    ∧ (<["/tmp/run/momentum_BTCUSDT.py" :=
           str_join nl (inject (str_split nl example_source) "BTCUSDT"
                          "/data/ohlcv/BTCUSDT.csv")]> example_fs)
        !! "/tmp/run/momentum_BTCUSDT.py"
      = Some (str_join nl (header ++
                [ "";
                  "# Data path for " +:+ "BTCUSDT"
                    +:+ " (injected by Multi-Asset Tester)";
                  "data_path = " +:+ String dquote "/data/ohlcv/BTCUSDT.csv"
                    +:+ String dquote "";
                  "" ] ++ rest)).
Proof.
  destruct (injection_is_lossless plain_template example_fs
              (<["/tmp/run/momentum_BTCUSDT.py" :=
                   str_join nl (inject (str_split nl example_source) "BTCUSDT"
                                  "/data/ohlcv/BTCUSDT.csv")]> example_fs)
              "/strategies/momentum.py" "BTCUSDT" "/data/ohlcv/BTCUSDT.csv" "/tmp/run"
              example_source "/tmp/run/momentum_BTCUSDT.py")
    as (header & rest & _ & Hsame & Hwritten).
  - vm_compute. reflexivity.
  - repeat constructor.
  - vm_compute. reflexivity.
  - exists header, rest. split; [apply Hsame; reflexivity | exact Hwritten].
Defined.

(** ** More on the orchestrator *)

Section Collected.
Variable parse_template : string → outcome (string → string).
Variable run_backtest_in_conda : gmap string string → string → string → runner_call.
Variable now : string.
Variable mkdtemp : string → string.
Variable as_completed :
  list (string * string * string * string) → list (string * string * string * string).
Variable worker_crash : string * string * string * string → option exn.
Variable self : MultiAssetTester.
Variable fs : gmap string string.

Hypothesis as_completed_perm : ∀ tasks, as_completed tasks ≡ₚ tasks.

Let run_task (task : string * string * string * string) : TestResult :=
  let '(strategy_path, asset_name, data_file, temp_dir) := task in
  test_strategy_on_asset parse_template run_backtest_in_conda now self fs
    strategy_path asset_name data_file temp_dir.

Lemma run_task_asset (task : string * string * string * string) :
  asset (run_task task) = task.1.1.2 ∧ strategy (run_task task) = Path_stem (Path task.1.1.1).
Proof.
  destruct task as [[[sp a] dp] td]. unfold run_task, test_strategy_on_asset. cbn [fst snd].
  destruct (_create_strategy_variant _ _ _ _ _ _) as [[variant fs']|e]; [|done].
  destruct (reply _) as [backtest_result|e]; [|done].
  destruct (truthy _); [|done].
  destruct (_parse_backtest_output _); done.
Qed.

(** The records are those of the tasks whose future returns, in the order
    of completion. *)
Lemma collect_results (futures : list (string * string * string * string))
    (results : list TestResult) (completed : nat) :
  (collect parse_template run_backtest_in_conda now worker_crash self fs
     futures results completed).1
  = results ++ map run_task (filter (λ task, worker_crash task = None) futures).
Proof.
  revert results completed.
  induction futures as [|task futures' IH]; intros results completed; cbn [collect].
  - by rewrite filter_nil, app_nil_r.
  - unfold future_result. rewrite filter_cons.
    destruct (worker_crash task) as [e|] eqn:Hcrash.
    + destruct (decide _) as [?|_]; [discriminate|]. apply IH.
    + destruct (decide _) as [_|?]; [|contradiction].
      destruct task as [[[sp a] dp] td]. rewrite IH, <- app_assoc. reflexivity.
Qed.

Let tasks_for (strategy_path : string) : list (string * string * string * string) :=
  map (λ '(asset, data_path),
         (strategy_path, asset, data_path,
          mkdtemp ("moon_dev_multi_asset_" +:+ Path_stem (Path strategy_path) +:+ "_")))
      (available_assets self).


Lemma run_results (strategy_path : string) :
  test_strategy_on_all_assets parse_template run_backtest_in_conda now mkdtemp
    as_completed worker_crash self fs strategy_path
  = map run_task (filter (λ task, worker_crash task = None)
                         (as_completed (tasks_for strategy_path))).
Proof.
  unfold test_strategy_on_all_assets, tasks_for.
  destruct (available_assets self) as [|a l] eqn:Hassets.
  - cbn [map]. by rewrite (proj1 (Permutation_nil_r _) (as_completed_perm [])).
  - by rewrite collect_results.
Qed.
End Collected.







(** ** More on the summary *)

Lemma insert_desc_sorted (x : TestResult) (l : list TestResult) :
  StronglySorted (λ a b, (sort_key b <= sort_key a)%Q) l →
  StronglySorted (λ a b, (sort_key b <= sort_key a)%Q) (insert_desc x l).
Proof.
  induction 1 as [|y l Hsorted IH Hy]; cbn [insert_desc].
  - repeat constructor.
  - destruct (Qle_bool (sort_key y) (sort_key x)) eqn:Hle.
    + apply Qle_bool_iff in Hle. constructor; [by constructor|].
      constructor; [exact Hle|].
      eapply Forall_impl; [exact Hy|]. intros z Hz. cbn in *.
      by apply (Qle_trans _ (sort_key y)).
    + constructor; [exact IH|].
      rewrite insert_desc_perm. constructor; [|exact Hy].
      apply Qlt_le_weak, Qnot_le_lt. intros H%Qle_bool_iff. congruence.
Qed.

Lemma sort_desc_sorted (l : list TestResult) :
  StronglySorted (λ a b, (sort_key b <= sort_key a)%Q) (sort_desc l).
Proof.
  induction l as [|x l IH]; cbn; [constructor | by apply insert_desc_sorted].
Qed.

Lemma insert_desc_stable (q : Q) (x : TestResult) (l : list TestResult) :
  List.filter (λ r, Qeq_bool (sort_key r) q) (insert_desc x l)
  = List.filter (λ r, Qeq_bool (sort_key r) q) (x :: l).
Proof.
  induction l as [|y l IH]; [reflexivity|]. cbn [insert_desc].
  destruct (Qle_bool (sort_key y) (sort_key x)) eqn:Hle; [reflexivity|].
  cbn [List.filter] in *. rewrite IH.
  destruct (Qeq_bool (sort_key y) q) eqn:Hy; [|reflexivity].
  destruct (Qeq_bool (sort_key x) q) eqn:Hx; [|reflexivity].
  apply Qeq_bool_iff in Hx, Hy.
  assert (Qle_bool (sort_key y) (sort_key x) = true); [|congruence].
  apply Qle_bool_iff. rewrite Hx, Hy. apply Qle_refl.
Qed.

Lemma sort_desc_stable (q : Q) (l : list TestResult) :
  List.filter (λ r, Qeq_bool (sort_key r) q) (sort_desc l)
  = List.filter (λ r, Qeq_bool (sort_key r) q) l.
Proof.
  induction l as [|x l IH]; [reflexivity|].
  cbn [sort_desc foldr]. fold (sort_desc l). rewrite insert_desc_stable.
  cbn [List.filter]. by rewrite IH.
Qed.

Lemma successful_with_metrics_elem (results : list TestResult) (r : TestResult) :
  r ∈ successful_with_metrics results ↔
  r ∈ results ∧ status r = "success" ∧ is_Some (metrics r !! "sharpe").
Proof.
  unfold successful_with_metrics. rewrite !list_elem_of_filter. tauto.
Qed.

Lemma last_default {A} (x : A) (l : list A) (d d' : A) :
  List.last (x :: l) d = List.last (x :: l) d'.
Proof.
  revert x. induction l as [|y l IH]; intros x; [reflexivity|].
  change (List.last (y :: l) d = List.last (y :: l) d'). apply IH.
Qed.

(** What a printed summary is made of. *)
Lemma print_summary_ranking (results : list TestResult) (total successful failed : nat)
    (ranking : Ranking) :
  print_summary results = Return (Report total successful failed (Some ranking)) →
  ranked ranking = sort_desc (successful_with_metrics results)
  ∧ ∃ first others,
      ranked ranking = first :: others
      ∧ best ranking = first
      ∧ worst ranking = List.last (first :: others) first
      ∧ metrics (best ranking) !! "sharpe" = Some (best_sharpe ranking)
      ∧ metrics (worst ranking) !! "sharpe" = Some (worst_sharpe ranking).
Proof.
  unfold print_summary. destruct results as [|r0 results']; [discriminate|].
  set (results := r0 :: results').
  destruct (successful_with_metrics results) as [|r1 others] eqn:Hswm;
    [discriminate|].
  rewrite <- Hswm. cbv zeta.
  intros (rows & _ & H)%bind_Return. apply bind_Return in H as (bs & Hbs & H).
  apply bind_Return in H as (br & _ & H).
  apply bind_Return in H as (ws & Hws & H). apply bind_Return in H as (wr & _ & H).
  apply bind_Return in H as (ts & _ & H). apply bind_Return in H as (tr & _ & H).
  injection H as _ _ _ <-. cbn [ranked best worst best_sharpe worst_sharpe].
  split; [reflexivity|].
  pose proof (sort_desc_perm (successful_with_metrics results)) as Hperm.
  destruct (sort_desc (successful_with_metrics results)) as [|first rest] eqn:Hsorted.
  { rewrite Hswm in Hperm. by apply Permutation_nil_cons in Hperm. }
  exists first, rest. unfold getitem in Hbs, Hws. cbn [List.hd] in *.
  repeat split.
  - apply last_default.
  - destruct (metrics first !! "sharpe"); [by injection Hbs as -> | discriminate].
  - destruct (metrics (List.last (first :: rest) r1) !! "sharpe");
      [by injection Hws as -> | discriminate].
Qed.

Lemma last_elem {A} (x : A) (l : list A) (d : A) : List.last (x :: l) d ∈ x :: l.
Proof.
  revert x. induction l as [|y l IH]; intros x; [left|].
  right. change (List.last (y :: l) d ∈ y :: l). apply IH.
Qed.

Lemma sorted_last (l : list TestResult) (x d : TestResult) :
  StronglySorted (λ a b, (sort_key b <= sort_key a)%Q) (x :: l) →
  Forall (λ r, (sort_key (List.last (x :: l) d) <= sort_key r)%Q) (x :: l).
Proof.
  revert x. induction l as [|y l IH]; intros x Hsorted.
  - repeat constructor. apply Qle_refl.
  - apply StronglySorted_inv in Hsorted as [Hrest Hx].
    change (List.last (x :: y :: l) d) with (List.last (y :: l) d).
    constructor; [|by apply IH].
    pose proof (last_elem y l d) as Hin.
    rewrite Forall_forall in Hx. by apply Hx.
Qed.

(** X13. The ranking of a printed summary is in non-increasing order of
    Sharpe ratio and the sort is stable: entries with the same Sharpe ratio
    are ranked in the order in which their results were collected.  The
    best asset has the highest Sharpe ratio of the ranking and the worst the
    lowest. *)
Theorem ranking_is_sorted_and_stable :
  ∀ (results : list TestResult) (total successful failed : nat) (ranking : Ranking),
    print_summary results = Return (Report total successful failed (Some ranking)) →
    StronglySorted (λ a b, (sort_key b <= sort_key a)%Q) (ranked ranking)
    ∧ Forall (λ r, metrics r !! "sharpe" = Some (sort_key r)) (ranked ranking)
    ∧ (∀ q, List.filter (λ r, Qeq_bool (sort_key r) q) (ranked ranking)
            = List.filter (λ r, Qeq_bool (sort_key r) q)
                (successful_with_metrics results))
    ∧ best ranking ∈ ranked ranking
    ∧ worst ranking ∈ ranked ranking
    ∧ Forall (λ r, (sort_key r <= best_sharpe ranking)%Q
                   ∧ (worst_sharpe ranking <= sort_key r)%Q) (ranked ranking).
Proof.
  intros results total successful failed ranking Hprint.
  destruct (print_summary_ranking _ _ _ _ _ Hprint)
    as (Hranked & first & others & Hcons & Hbest & Hworst & Hbs & Hws).
  assert (StronglySorted (λ a b, (sort_key b <= sort_key a)%Q) (ranked ranking))
    as Hsorted by (rewrite Hranked; apply sort_desc_sorted).
  assert (best_sharpe ranking = sort_key (best ranking)) as Hbkey
    by (unfold sort_key; by rewrite Hbs).
  assert (worst_sharpe ranking = sort_key (worst ranking)) as Hwkey
    by (unfold sort_key; by rewrite Hws).
  repeat split.
  - exact Hsorted.
  - rewrite Hranked. apply Forall_forall. intros r Hr.
    rewrite sort_desc_perm in Hr.
    apply successful_with_metrics_elem in Hr as (_ & _ & [v Hv]).
    unfold sort_key. by rewrite Hv.
  - intros q. rewrite Hranked. apply sort_desc_stable.
  - rewrite Hcons, Hbest. left.
  - rewrite Hcons, Hworst. apply last_elem.
  - rewrite Hbkey, Hwkey, Hbest, Hworst. rewrite Hcons in Hsorted |- *.
    pose proof (sorted_last others first first Hsorted) as Hlast.
    apply StronglySorted_inv in Hsorted as [_ Hfirst].
    apply Forall_forall. intros r Hr. split.
    + apply elem_of_cons in Hr as [->|Hr]; [apply Qle_refl|].
      rewrite Forall_forall in Hfirst. by apply Hfirst.
    + rewrite Forall_forall in Hlast. by apply Hlast.
Qed.

Lemma ranking_is_sorted_and_stable_witness :
  ∃ ranking,
    print_summary example_results = Return (Report 2 2 0 (Some ranking))
    ∧ StronglySorted (λ a b, (sort_key b <= sort_key a)%Q) (ranked ranking).
Proof.
  eexists. split.
  - vm_compute. reflexivity.
  - refine (proj1 (ranking_is_sorted_and_stable example_results 2 2 0 _ _)).
    vm_compute. reflexivity.
Defined.

Lemma sum_metric_returns (key : string) (l : list TestResult) (acc : Q) :
  Forall (λ r, is_Some (metrics r !! key)) l ↔ ∃ v, sum_metric key l acc = Return v.
Proof.
  revert acc. induction l as [|r l IH]; intros acc; cbn [sum_metric].
  - split; [by eexists | constructor].
  - unfold getitem. rewrite Forall_cons. destruct (metrics r !! key) as [v|].
    + cbn [mbind outcome_bind]. rewrite (IH (acc + v)%Q). split; [by intros [_ ?] | eauto].
    + cbn [mbind outcome_bind]. split; [by intros [[? ?] _] | by intros [? ?]].
Qed.

Lemma sum_metric_raises (key : string) (l : list TestResult) (acc : Q) (e : exn) :
  sum_metric key l acc = Raise e →
  e = KeyError key ∧ ∃ r, r ∈ l ∧ metrics r !! key = None.
Proof.
  revert acc. induction l as [|r l IH]; intros acc; cbn [sum_metric]; [discriminate|].
  unfold getitem. destruct (metrics r !! key) as [v|] eqn:Hr; cbn [mbind outcome_bind].
  - intros (-> & r' & Hin & Hnone)%IH. split; [reflexivity|]. exists r'. by split; [right|].
  - intros [= <-]. split; [reflexivity|]. exists r. by split; [left|].
Qed.




Lemma ranking_rows_returns (l : list TestResult) :
  Forall (λ r, ∀ v, metrics r !! "trades" = Some v → is_infinite v = false) l
  ↔ ∃ rows, ranking_rows l = Return rows.
Proof.
  induction l as [|r l IH]; cbn [ranking_rows].
  - split; [by eexists | constructor].
  - rewrite Forall_cons, IH. unfold int_of_float.
    destruct (metrics r !! "trades") as [v|]; cbn [mbind outcome_bind].
    + destruct (is_infinite v) eqn:Hv; cbn [mbind outcome_bind].
      * split; [intros [Hr _]; specialize (Hr v eq_refl); congruence | by intros [? ?]].
      * destruct (ranking_rows l) as [rows|e]; cbn [mbind outcome_bind].
        -- split; [by eexists|]. intros _. split; [|by eexists].
           by intros v' [= <-].
        -- split; [by intros [_ [? ?]] | by intros [? ?]].
    + destruct (ranking_rows l) as [rows|e]; cbn [mbind outcome_bind].
      * split; [by eexists|]. intros _. split; [done | by eexists].
      * split; [by intros [_ [? ?]] | by intros [? ?]].
Qed.

Lemma ranking_rows_raises (l : list TestResult) (e : exn) :
  ranking_rows l = Raise e →
  e = OverflowError "cannot convert float infinity to integer"
  ∧ ∃ r v, r ∈ l ∧ metrics r !! "trades" = Some v ∧ is_infinite v = true.
Proof.
  induction l as [|r l IH]; cbn [ranking_rows]; [discriminate|].
  unfold int_of_float.
  destruct (metrics r !! "trades") as [v|] eqn:Hr; cbn [mbind outcome_bind].
  - destruct (is_infinite v) eqn:Hv; cbn [mbind outcome_bind].
    + intros [= <-]. split; [reflexivity|]. exists r, v. by split; [left|].
    + destruct (ranking_rows l) as [rows|e']; cbn [mbind outcome_bind]; [discriminate|].
      intros [= ->]. destruct (IH eq_refl) as (-> & r' & v' & Hin & Ht & Hinf).
      split; [reflexivity|]. exists r', v'. by split; [right|].
  - destruct (ranking_rows l) as [rows|e']; cbn [mbind outcome_bind]; [discriminate|].
    intros [= ->]. destruct (IH eq_refl) as (-> & r' & v' & Hin & Ht & Hinf).
    split; [reflexivity|]. exists r', v'. by split; [right|].
Qed.

(** The three ways [print_summary] can end, by the results it ranks. *)
Lemma print_summary_cases (results : list TestResult) :
  (print_summary results = Raise (OverflowError "cannot convert float infinity to integer")
   ∧ ∃ r v, r ∈ successful_with_metrics results
            ∧ metrics r !! "trades" = Some v ∧ is_infinite v = true)
  ∨ (print_summary results = Raise (KeyError "return")
     ∧ (∀ r v, r ∈ successful_with_metrics results →
               metrics r !! "trades" = Some v → is_infinite v = false)
     ∧ ∃ r, r ∈ successful_with_metrics results ∧ metrics r !! "return" = None)
  ∨ ((∃ summary, print_summary results = Return summary)
     ∧ (∀ r v, r ∈ successful_with_metrics results →
               metrics r !! "trades" = Some v → is_infinite v = false)
     ∧ ∀ r, r ∈ successful_with_metrics results → is_Some (metrics r !! "return")).
Proof.
  unfold print_summary. destruct results as [|r0 results'].
  { right. right. split; [by eexists|]. split.
    - by intros ? ? ?%elem_of_nil.
    - by intros ? ?%elem_of_nil. }
  set (results := r0 :: results') in *.
  destruct (successful_with_metrics results) as [|r1 others] eqn:Hswm.
  { right. right. split; [by eexists|]. split.
    - by intros ? ? ?%elem_of_nil.
    - by intros ? ?%elem_of_nil. }
  rewrite <- Hswm. cbv zeta.
  pose proof (sort_desc_perm (successful_with_metrics results)) as Hperm.
  assert (Forall (λ r, is_Some (metrics r !! "sharpe"))
            (sort_desc (successful_with_metrics results))) as Hsorted.
  { apply Forall_forall. intros x Hx. rewrite Hperm in Hx.
    by apply successful_with_metrics_elem in Hx as (_ & _ & ?). }
  destruct (sort_desc (successful_with_metrics results)) as [|first rest] eqn:Hcons.
  { rewrite Hswm in Hperm. by apply Permutation_nil_cons in Hperm. }
  destruct (ranking_rows (first :: rest)) as [rows|e] eqn:Hrows;
    cbn [mbind outcome_bind].
  2:{ left. apply ranking_rows_raises in Hrows as (-> & r & v & Hin & Ht & Hinf).
      split; [reflexivity|]. exists r, v. by rewrite <- Hperm. }
  right.
  assert (∀ r v, r ∈ successful_with_metrics results →
                 metrics r !! "trades" = Some v → is_infinite v = false) as Hfinite.
  { intros r v Hr. rewrite <- Hperm in Hr. revert v.
    assert (Forall (λ r, ∀ v, metrics r !! "trades" = Some v → is_infinite v = false)
              (first :: rest)) as Hall by (apply ranking_rows_returns; eauto).
    rewrite Forall_forall in Hall. by apply Hall. }
  pose proof (last_elem first rest r1) as Hlast.
  pose proof Hsorted as Hboth. rewrite Forall_forall in Hboth.
  destruct (Hboth first ltac:(left)) as [bs Hbs].
  destruct (Hboth _ Hlast) as [ws Hws].
  apply (sum_metric_returns _ _ 0%Q) in Hsorted as [ts Hts].
  unfold getitem. cbn [List.hd]. rewrite Hbs, Hws. cbn [mbind outcome_bind].
  destruct (decide (Forall (λ r, is_Some (metrics r !! "return")) (first :: rest)))
    as [Hall|Hnot].
  - right. split; [|split; [exact Hfinite|]].
    + pose proof Hall as Hreturns. rewrite Forall_forall in Hreturns.
      destruct (Hreturns first ltac:(left)) as [br Hbr].
      destruct (Hreturns _ Hlast) as [wr Hwr].
      apply (sum_metric_returns _ _ 0%Q) in Hall as [tr Htr].
      rewrite Hbr, Hwr. cbn [mbind outcome_bind]. rewrite Hts, Htr. by eexists.
    + intros r Hr. rewrite <- Hperm in Hr. rewrite Forall_forall in Hall.
      by apply Hall.
  - left. split; [|split; [exact Hfinite|]].
    + destruct (metrics first !! "return"); cbn [mbind outcome_bind]; [|reflexivity].
      destruct (metrics (List.last (first :: rest) r1) !! "return");
        cbn [mbind outcome_bind]; [|reflexivity].
      rewrite Hts. cbn [mbind outcome_bind].
      destruct (sum_metric "return" (first :: rest) 0) as [tr|e] eqn:Htr;
        cbn [mbind outcome_bind].
      * exfalso. apply Hnot. apply (sum_metric_returns _ _ 0%Q). eauto.
      * by apply sum_metric_raises in Htr as [-> _].
    + apply not_Forall_Exists in Hnot; [|apply _].
      apply Exists_exists in Hnot as (r & Hr & Hn). exists r.
      split; [by rewrite <- Hperm|].
      destruct (metrics r !! "return") as [v|] eqn:Hv; [|reflexivity].
      exfalso. apply Hn. by eexists.
Qed.

(** X15. [print_summary] returns exactly when every ranked result, that
    is every successful result with a Sharpe ratio, has a return value and
    no number of trades that is an infinity; in particular it returns on an
    empty list and when no result qualifies for the ranking. *)
Theorem summary_returns_exactly_when_rows_print :
  ∀ results : list TestResult,
    (∃ summary, print_summary results = Return summary)
    ↔ (∀ r, r ∈ successful_with_metrics results →
            is_Some (metrics r !! "return")
            ∧ ∀ v, metrics r !! "trades" = Some v → is_infinite v = false).
Proof.
  intros results.
  destruct (print_summary_cases results)
    as [(Hraise & r & v & Hr & Ht & Hinf)
       |[(Hraise & Hfinite & r & Hr & Hnone)|(Hreturn & Hfinite & Hreturns)]].
  - split.
    + intros [summary Hprint]. congruence.
    + intros Hall. destruct (Hall r Hr) as [_ Hv]. specialize (Hv v Ht). congruence.
  - split.
    + intros [summary Hprint]. congruence.
    + intros Hall. destruct (Hall r Hr) as [[x Hx] _]. congruence.
  - split; [|by intros _].
    intros _ r Hr. split; [by apply Hreturns | intros v; by apply Hfinite].
Qed.

(** X16. [print_summary] raises two exceptions and no other.  It raises
    [OverflowError] when a ranked result has an infinity as its number of
    trades, which the rows of the table convert with [int]; otherwise it
    raises [KeyError('return')] when a ranked result has no return value. *)
Theorem summary_raises_two_errors_only :
  ∀ (results : list TestResult) (e : exn),
    print_summary results = Raise e →
    (e = OverflowError "cannot convert float infinity to integer"
     ∧ ∃ r v, r ∈ results ∧ status r = "success" ∧ is_Some (metrics r !! "sharpe")
              ∧ metrics r !! "trades" = Some v ∧ is_infinite v = true)
    ∨ (e = KeyError "return"
       ∧ (∃ r, r ∈ results ∧ status r = "success" ∧ is_Some (metrics r !! "sharpe")
               ∧ metrics r !! "return" = None)
       ∧ ∀ r v, r ∈ results → status r = "success" → is_Some (metrics r !! "sharpe") →
                metrics r !! "trades" = Some v → is_infinite v = false).
Proof.
  intros results e Hraise.
  destruct (print_summary_cases results)
    as [(Hprint & r & v & Hr & Ht & Hinf)
       |[(Hprint & Hfinite & r & Hr & Hnone)|([summary Hprint] & _)]].
  - left. split; [congruence|]. exists r, v.
    apply successful_with_metrics_elem in Hr as (Hin & Hok & Hsharpe). by repeat split.
  - right. split; [congruence|]. split.
    + exists r. apply successful_with_metrics_elem in Hr as (Hin & Hok & Hsharpe).
      by repeat split.
    + intros r' v' Hin Hok Hsharpe. apply Hfinite.
      by apply successful_with_metrics_elem.
  - congruence.
Qed.

Lemma summary_raises_two_errors_only_witness :
  (OverflowError "cannot convert float infinity to integer"
   = OverflowError "cannot convert float infinity to integer"
   ∧ ∃ r v, r ∈ [test_strategy_on_asset plain_template
                   (runner_success 2
                      ("Sharpe Ratio 1.5" +:+ String nl "# Trades "
                         +:+ string_of_list_ascii (repeat "9"%char 400)))
                   "2025-03-14T10:00:00" (example_tester []) example_fs
                   "/strategies/momentum.py" "BTCUSDT" "/data/ohlcv/BTCUSDT.csv"
                   "/tmp/run"]
            ∧ status r = "success" ∧ is_Some (metrics r !! "sharpe")
            ∧ metrics r !! "trades" = Some v ∧ is_infinite v = true)
  ∨ (OverflowError "cannot convert float infinity to integer" = KeyError "return"
     ∧ (∃ r, r ∈ [test_strategy_on_asset plain_template
                    (runner_success 2
                       ("Sharpe Ratio 1.5" +:+ String nl "# Trades "
                          +:+ string_of_list_ascii (repeat "9"%char 400)))
                    "2025-03-14T10:00:00" (example_tester []) example_fs
                    "/strategies/momentum.py" "BTCUSDT" "/data/ohlcv/BTCUSDT.csv"
                    "/tmp/run"]
             ∧ status r = "success" ∧ is_Some (metrics r !! "sharpe")
             ∧ metrics r !! "return" = None)
     ∧ ∀ r v, r ∈ [test_strategy_on_asset plain_template
                     (runner_success 2
                        ("Sharpe Ratio 1.5" +:+ String nl "# Trades "
                           +:+ string_of_list_ascii (repeat "9"%char 400)))
                     "2025-03-14T10:00:00" (example_tester []) example_fs
                     "/strategies/momentum.py" "BTCUSDT" "/data/ohlcv/BTCUSDT.csv"
                     "/tmp/run"] →
              status r = "success" → is_Some (metrics r !! "sharpe") →
              metrics r !! "trades" = Some v → is_infinite v = false).
Proof.
  apply (summary_raises_two_errors_only _
           (OverflowError "cannot convert float infinity to integer")).
  vm_compute. reflexivity.
Defined.

Lemma print_summary_counts (results : list TestResult) (total successful failed : nat)
    (ranking : option Ranking) :
  print_summary results = Return (Report total successful failed ranking) →
  total = length results
  ∧ successful = length (filter (λ r, status r = "success") results)
  ∧ failed = length (filter (λ r, status r ∈ ["failed"; "error"]) results).
Proof.
  unfold print_summary. destruct results as [|r0 results']; [discriminate|].
  set (results := r0 :: results').
  destruct (successful_with_metrics results) as [|r1 others] eqn:Hswm.
  - by intros [= <- <- <- _].
  - rewrite <- Hswm. cbv zeta. intros H.
    repeat (apply bind_Return in H as (? & _ & H)). by injection H as <- <- <- _.
Qed.

Lemma status_counts (results : list TestResult) :
  (length (filter (λ r, status r = "success") results)
   + length (filter (λ r, status r ∈ ["failed"; "error"]) results)
   ≤ length results)%nat
  ∧ (Forall (λ r, status r ∈ ["success"; "failed"; "error"]) results →
     length (filter (λ r, status r = "success") results)
     + length (filter (λ r, status r ∈ ["failed"; "error"]) results)
     = length results).
Proof.
  induction results as [|r results [IHle IHeq]]; [by split|].
  rewrite !filter_cons.
  destruct (decide (status r = "success")) as [Hs|Hs];
    destruct (decide (status r ∈ ["failed"; "error"])) as [Hf|Hf]; cbn [length].
  - rewrite Hs in Hf. rewrite !elem_of_cons, elem_of_nil in Hf.
    by destruct Hf as [?|[?|[]]].
  - split; [lia|]. intros [_ Hall]%Forall_cons. specialize (IHeq Hall). lia.
  - split; [lia|]. intros [_ Hall]%Forall_cons. specialize (IHeq Hall). lia.
  - split; [lia|]. intros [Hr _]%Forall_cons.
    by apply elem_of_cons in Hr as [Hr|Hr].
Qed.

(** X17. The counts of a printed summary are taken over the whole list of
    results: the successful ones and the failed ones (status ['failed'] or
    ['error']) never add up to more than the total, and they add up to the
    total when every status is one of the three a test can end with. *)
Theorem summary_counts :
  ∀ (results : list TestResult) (total successful failed : nat)
    (ranking : option Ranking),
    print_summary results = Return (Report total successful failed ranking) →
    total = length results
    ∧ successful = length (filter (λ r, status r = "success") results)
    ∧ failed = length (filter (λ r, status r ∈ ["failed"; "error"]) results)
    ∧ (successful + failed ≤ total)%nat
    ∧ (Forall (λ r, status r ∈ ["success"; "failed"; "error"]) results →
       successful + failed = total).
Proof.
  intros results total successful failed ranking Hprint.
  destruct (print_summary_counts _ _ _ _ _ Hprint) as (-> & -> & ->).
  destruct (status_counts results) as [Hle Heq]. by repeat split.
Qed.

Lemma summary_counts_witness :
  ∃ ranking,
    print_summary example_results = Return (Report 2 2 0 ranking)
    ∧ 2 = length example_results.
Proof.
  eexists. split.
  - vm_compute. reflexivity.
  - refine (proj1 (summary_counts example_results 2 2 0 _ _)).
    vm_compute. reflexivity.
Defined.

(** ** The catalog: [_discover_assets] *)

Lemma dict_setitem_assoc {A} (key key' : string) (value : A) (d : list (string * A)) :
  assoc key' (dict_setitem key value d)
  = if String.eqb key key' then Some value else assoc key' d.
Proof.
  induction d as [|[k v] d IH]; cbn [dict_setitem assoc]; [reflexivity|].
  destruct (String.eqb_spec k key) as [->|Hk]; cbn [assoc].
  - by destruct (String.eqb key key').
  - rewrite IH.
    destruct (String.eqb_spec k key') as [->|_]; [|reflexivity].
    by destruct (String.eqb_spec key key') as [->|_].
Qed.

Lemma dict_setitem_elem {A} (key k : string) (value v : A) (d : list (string * A)) :
  (k, v) ∈ dict_setitem key value d → (k, v) = (key, value) ∨ (k, v) ∈ d.
Proof.
  induction d as [|[k0 v0] d IH]; cbn [dict_setitem].
  - intros ->%list_elem_of_singleton. by left.
  - destruct (String.eqb_spec k0 key) as [->|_].
    + intros [->|Hin]%elem_of_cons; [by left | right; by right].
    + intros [->|Hin]%elem_of_cons; [right; by left|].
      destruct (IH Hin) as [?|?]; [by left | right; by right].
Qed.

Lemma dict_setitem_fresh {A} (key : string) (value : A) (d : list (string * A)) :
  key ∉ d.*1 → dict_setitem key value d = d ++ [(key, value)].
Proof.
  induction d as [|[k v] d IH]; cbn [dict_setitem]; [reflexivity|].
  rewrite fmap_cons, not_elem_of_cons. cbn [fst]. intros [Hne Hnotin].
  destruct (String.eqb_spec k key) as [->|_]; [done|].
  by rewrite IH.
Qed.

Lemma dict_setitem_NoDup {A} (key : string) (value : A) (d : list (string * A)) :
  NoDup d.*1 → NoDup (dict_setitem key value d).*1.
Proof.
  induction d as [|[k v] d IH]; cbn [dict_setitem].
  - intros _. apply NoDup_singleton.
  - rewrite fmap_cons, NoDup_cons. cbn [fst]. intros [Hk Hd].
    destruct (String.eqb_spec k key) as [->|Hne].
    + rewrite fmap_cons, NoDup_cons. by split.
    + rewrite fmap_cons, NoDup_cons. cbn [fst]. split; [|by apply IH].
      intros ([k' v'] & Heq & Hin)%list_elem_of_fmap. cbn [fst] in Heq. subst k'.
      apply dict_setitem_elem in Hin as [[= ? ?]|Hin]; [done|].
      apply Hk, list_elem_of_fmap. by exists (k, v').
Qed.

Lemma discover_snoc (glob : list PurePath) (p : PurePath) :
  _discover_assets true (glob ++ [p])
  = dict_setitem (Path_stem p) (Path_str p) (_discover_assets true glob).
Proof. unfold _discover_assets. cbn [negb]. by rewrite fold_left_app. Qed.

(** X18. The catalog has one entry per stem: no symbol twice, under each
    symbol the last of the globbed files with that stem, and nothing that
    does not come from a globbed file.  A data directory that does not
    exist gives the empty catalog. *)
Theorem catalog_holds_last_file_of_each_stem :
  ∀ (dir_exists : bool) (glob : list PurePath),
    NoDup (_discover_assets dir_exists glob).*1
    ∧ (∀ symbol,
         assoc symbol (_discover_assets dir_exists glob)
         = if dir_exists
           then Path_str <$> last (filter (λ p, Path_stem p = symbol) glob)
           else None)
    ∧ (∀ symbol file,
         (symbol, file) ∈ _discover_assets dir_exists glob →
         ∃ p, p ∈ glob ∧ Path_stem p = symbol ∧ Path_str p = file).
Proof.
  intros [|] glob.
  - induction glob as [|p glob (IHnodup & IHassoc & IHelem)] using rev_ind.
    + repeat split; [constructor|]. by intros symbol file Hin%elem_of_nil.
    + rewrite discover_snoc. split; [by apply dict_setitem_NoDup|]. split.
      * intros symbol. rewrite dict_setitem_assoc, filter_app, filter_cons, filter_nil.
        destruct (String.eqb_spec (Path_stem p) symbol) as [Heq|Hne].
        -- destruct (decide _) as [_|?]; [|contradiction]. by rewrite last_snoc.
        -- destruct (decide _) as [?|_]; [contradiction|]. by rewrite app_nil_r.
      * intros symbol file [[= -> ->]|Hin]%dict_setitem_elem.
        -- exists p. split; [|done]. apply elem_of_app. right. by left.
        -- destruct (IHelem _ _ Hin) as (q & Hq & ? & ?). exists q.
           split; [|done]. apply elem_of_app. by left.
  - repeat split; [constructor|]. by intros symbol file Hin%elem_of_nil.
Qed.

Lemma stem_determines_name (p q : PurePath) :
  Path_suffix p = Path_suffix q → Path_stem p = Path_stem q → Path_name p = Path_name q.
Proof.
  intros Hsuffix Hstem.
  rewrite (proj1 (stem_suffix p)), (proj1 (stem_suffix q)). by rewrite Hsuffix, Hstem.
Qed.


Lemma csv_stems_distinct (glob : list PurePath) :
  Forall (λ p, Path_suffix p = ".csv") glob →
  NoDup (map Path_name glob) → NoDup (map Path_stem glob).
Proof.
  intros Hcsv Hnames.
  induction glob as [|p glob IH]; [constructor|].
  apply Forall_cons in Hcsv as [Hp Hcsv]. cbn [map] in *.
  apply NoDup_cons in Hnames as [Hname Hnames].
  apply NoDup_cons. split; [|by apply IH].
  intros (q & Hstem & Hq)%list_elem_of_fmap. apply Hname.
  apply list_elem_of_fmap. exists q. split; [|exact Hq].
  apply stem_determines_name; [|exact Hstem].
  rewrite Forall_forall in Hcsv. by rewrite Hp, (Hcsv q Hq).
Qed.

(** X19. When the globbed files all have the suffix [.csv] and no two of
    them the same name, as the files of one directory, the catalog has
    exactly one entry per file, in the order of the glob: the stem of the
    file with the file. *)
Theorem one_asset_per_csv_file :
  ∀ glob : list PurePath,
    Forall (λ p, Path_suffix p = ".csv") glob →
    NoDup (map Path_name glob) →
    _discover_assets true glob = map (λ p, (Path_stem p, Path_str p)) glob.
Proof.
  intros glob Hcsv Hnames.
  pose proof (csv_stems_distinct glob Hcsv Hnames) as Hstems.
  induction glob as [|p glob IH] using rev_ind; [reflexivity|].
  apply Forall_app in Hcsv as [Hcsv _].
  rewrite map_app in Hnames. apply NoDup_app in Hnames as (Hnames & _ & _).
  rewrite map_app in Hstems. apply NoDup_app in Hstems as (Hstems & Hfresh & _).
  rewrite discover_snoc, (IH Hcsv Hnames Hstems), map_app. cbn [map].
  apply dict_setitem_fresh. rewrite <- list_fmap_compose.
  intros Hin. apply (Hfresh (Path_stem p)); [exact Hin | by left].
Qed.

Lemma one_asset_per_csv_file_witness :
  _discover_assets true example_glob
  = [("BTCUSDT", "/data/ohlcv/BTCUSDT.csv"); ("ETH-USD-15m", "/data/ohlcv/ETH-USD-15m.csv")].
Proof.
  refine (one_asset_per_csv_file example_glob _ _).
  - repeat constructor.
  - apply (bool_decide_unpack _). vm_compute. reflexivity.
Defined.




(** ** The end of [main]: summary, then saving *)

Lemma after_run_stores (self : MultiAssetTester) (returned : list TestResult) :
  (available_assets self = [] → results self = [] ∧ returned = []) →
  results (after_run self returned) = returned
  ∧ available_assets (after_run self returned) = available_assets self.
Proof.
  unfold after_run. intros Hempty.
  destruct (available_assets self) as [|a l] eqn:Hassets.
  - destruct (Hempty eq_refl) as [-> ->]. by rewrite Hassets.
  - done.
Qed.

Lemma run_results_strategy
    (parse_template : string → outcome (string → string))
    (run_backtest_in_conda : gmap string string → string → string → runner_call)
    (now : string) (mkdtemp : string → string)
    (as_completed : list (string * string * string * string)
                    → list (string * string * string * string))
    (worker_crash : string * string * string * string → option exn)
    (self : MultiAssetTester) (fs : gmap string string) (strategy_path : string) :
  (∀ tasks, as_completed tasks ≡ₚ tasks) →
  Forall (λ r, strategy r = Path_stem (Path strategy_path))
    (test_strategy_on_all_assets parse_template run_backtest_in_conda now mkdtemp
       as_completed worker_crash self fs strategy_path).
Proof.
  intros Hperm.
  rewrite (run_results parse_template run_backtest_in_conda now mkdtemp as_completed
             worker_crash self fs Hperm strategy_path).
  apply Forall_fmap, Forall_forall. intros task [_ Htask]%list_elem_of_filter. cbn.
  rewrite (proj2 (run_task_asset parse_template run_backtest_in_conda now self fs task)).
  rewrite (Hperm _) in Htask.
  apply list_elem_of_fmap in Htask as ([a dp] & -> & _). reflexivity.
Qed.



(** X22. What the end of [main] saves after a run of a fresh tester: the
    records of the run, their number as [total_tests], and as
    [assets_tested] all the symbols of the catalog.  So [total_tests] is at
    most the number of [assets_tested], and equal to it when no future
    raised; the strategy is the stem of the strategy file, or ['unknown']
    without records; and every ranked record that was saved has a return
    value. *)
Theorem saved_file_reports_the_run :
  ∀ (parse_template : string → outcome (string → string))
    (run_backtest_in_conda : gmap string string → string → string → runner_call)
    (now : string) (mkdtemp : string → string)
    (as_completed : list (string * string * string * string)
                    → list (string * string * string * string))
    (worker_crash : string * string * string * string → option exn)
    (saved_at stamp module_dir : string)
    (tester : MultiAssetTester) (fs : gmap string string) (strategy_path : string)
    (output_file : option string) (file : PurePath) (d : data.t),
    (∀ tasks, as_completed tasks ≡ₚ tasks) →
    results tester = [] →
    run_and_save parse_template run_backtest_in_conda now mkdtemp as_completed
      worker_crash saved_at stamp module_dir tester fs strategy_path output_file
    = Return (file, d) →
    data.results d
    = test_strategy_on_all_assets parse_template run_backtest_in_conda now mkdtemp
        as_completed worker_crash tester fs strategy_path
    ∧ data.total_tests d = length (data.results d)
    ∧ data.assets_tested d = (available_assets tester).*1
    ∧ (data.total_tests d ≤ length (data.assets_tested d))%nat
    ∧ ((∀ task, worker_crash task = None) →
       data.total_tests d = length (data.assets_tested d))
    ∧ data.strategy d
      = match data.results d with
        | [] => "unknown"
        | _ => Path_stem (Path strategy_path)
        end
    ∧ (∀ r, r ∈ data.results d → status r = "success" →
            is_Some (metrics r !! "sharpe") → is_Some (metrics r !! "return")).
Proof.
  intros pt run now mkdtemp completed crash saved_at stamp md tester fs sp out file d
    Hperm Hfresh.
  unfold run_and_save. cbv zeta.
  pose proof (run_all_length pt run now mkdtemp completed crash tester fs Hperm sp)
    as [_ Hle].
  pose proof (run_all_length_no_crash pt run now mkdtemp completed crash tester fs
                Hperm sp) as Hall.
  pose proof (run_results_strategy pt run now mkdtemp completed crash tester fs sp Hperm)
    as Hstrategy.
  set (returned := test_strategy_on_all_assets pt run now mkdtemp completed crash
                     tester fs sp) in *.
  destruct (after_run_stores tester returned) as [Hstored Hassets].
  { intros Hnone. split; [exact Hfresh|].
    unfold returned, test_strategy_on_all_assets. by rewrite Hnone. }
  rewrite Hstored. intros (summary & Hsummary & Hsave)%bind_Return.
  assert (∃ path, (file, d) = save_results saved_at (after_run tester returned) path)
    as [path Hsaved]
    by (destruct out as [[|c s]|]; eexists; by injection Hsave as <- <-).
  unfold save_results in Hsaved. injection Hsaved as -> ->.
  cbn [data.results data.total_tests data.assets_tested data.strategy].
  rewrite Hstored, Hassets, length_fmap.
  repeat split; try done.
  - destruct returned as [|r0 others]; [reflexivity|].
    by apply Forall_cons in Hstrategy as [? _].
  - intros r Hr Hstatus Hsharpe.
    destruct (print_summary_cases returned)
      as [(Hprint & _)|[(Hprint & _)|(_ & _ & Hreturns)]]; [congruence..|].
    by apply Hreturns, successful_with_metrics_elem.
Qed.

Lemma saved_file_reports_the_run_witness :
  ∃ file d,
    run_and_save plain_template (runner_success 2 Scenario_D_stdout)
      "2025-03-14T10:00:00" (λ prefix, "/tmp/" +:+ prefix +:+ "x1") (λ tasks, tasks)
      (λ task, if String.eqb task.1.1.2 "ETHUSDT"
               then Some (BrokenProcessPool "worker died") else None)
      "2025-03-14T10:05:00" "20250314_100500" "/repo/src"
      (example_tester [("BTCUSDT", "/data/ohlcv/BTCUSDT.csv");
                       ("ETHUSDT", "/data/ohlcv/ETHUSDT.csv")]) example_fs
      "/strategies/momentum.py" None
    = Return (file, d)
    ∧ data.total_tests d = 1 ∧ data.assets_tested d = ["BTCUSDT"; "ETHUSDT"]
    ∧ Path_str file = "/repo/src/data/multi_asset_results/momentum_20250314_100500.json"
    ∧ data.results d
      = test_strategy_on_all_assets plain_template (runner_success 2 Scenario_D_stdout)
          "2025-03-14T10:00:00" (λ prefix, "/tmp/" +:+ prefix +:+ "x1") (λ tasks, tasks)
          (λ task, if String.eqb task.1.1.2 "ETHUSDT"
                   then Some (BrokenProcessPool "worker died") else None)
          (example_tester [("BTCUSDT", "/data/ohlcv/BTCUSDT.csv");
                           ("ETHUSDT", "/data/ohlcv/ETHUSDT.csv")]) example_fs
          "/strategies/momentum.py".
Proof.
  eexists _, _. split; [vm_compute; reflexivity|].
  split; [vm_compute; reflexivity|]. split; [vm_compute; reflexivity|].
  split; [vm_compute; reflexivity|].
  refine (proj1 (saved_file_reports_the_run plain_template
                   (runner_success 2 Scenario_D_stdout)
                   "2025-03-14T10:00:00" (λ prefix, "/tmp/" +:+ prefix +:+ "x1")
                   (λ tasks, tasks)
                   (λ task, if String.eqb task.1.1.2 "ETHUSDT"
                            then Some (BrokenProcessPool "worker died") else None)
                   "2025-03-14T10:05:00" "20250314_100500" "/repo/src"
                   (example_tester [("BTCUSDT", "/data/ohlcv/BTCUSDT.csv");
                                    ("ETHUSDT", "/data/ohlcv/ETHUSDT.csv")]) example_fs
                   "/strategies/momentum.py" None _ _ _ _ _)).
  - intros tasks. reflexivity.
  - reflexivity.
  - vm_compute. reflexivity.
Defined.

(** ** The arguments of [main] *)

(** Induction for a loop that steps over one or two elements. *)
Lemma two_step_induction {A} (P : list A → Prop) :
  P [] → (∀ a, P [a]) → (∀ a b l, P l → P (b :: l) → P (a :: b :: l)) → ∀ l, P l.
Proof.
  intros Hnil Hone Hstep l.
  assert (P l ∧ ∀ a, P (a :: l)) as [H _]; [|exact H].
  induction l as [|b l [IH1 IH2]]; [by split|].
  split; [apply IH2|]. intros a. apply Hstep; [exact IH1 | apply IH2].
Qed.

(** X23. An option that does not occur among the arguments keeps the value
    it had before the loop: the loop sets nothing on its own. *)
Theorem options_not_given_keep_their_value :
  ∀ (int_ : string → outcome Z) (argv : list string) (o o' : Options),
    parse_arguments int_ argv o = Return o' →
    ("--data-dir" ∉ argv → opt_data_dir o' = opt_data_dir o)
    ∧ ("--workers" ∉ argv → opt_workers o' = opt_workers o)
    ∧ ("--timeout" ∉ argv → opt_timeout o' = opt_timeout o)
    ∧ ("--output" ∉ argv → opt_output_file o' = opt_output_file o).
Proof.
  intros int_ argv. induction argv as [|a|a b l IH1 IH2] using two_step_induction;
    intros o o'.
  - by intros [= <-].
  - by intros [= <-].
  - cbn [parse_arguments].
    assert (∀ x : string, x ∉ (a :: b :: l) → (x ≠ a) ∧ (x ∉ l) ∧ (x ∉ (b :: l))) as Hsplit.
    { intros x. rewrite !not_elem_of_cons. tauto. }
    destruct (String.eqb_spec a "--data-dir") as [->|_].
    { intros (H1 & H2 & H3 & H4)%IH1. cbn in *.
      repeat split; intros (? & ? & _)%Hsplit; auto. done. }
    destruct (String.eqb_spec a "--workers") as [->|_].
    { intros (n & _ & (H1 & H2 & H3 & H4)%IH1)%bind_Return. cbn in *.
      repeat split; intros (? & ? & _)%Hsplit; auto. done. }
    destruct (String.eqb_spec a "--timeout") as [->|_].
    { intros (n & _ & (H1 & H2 & H3 & H4)%IH1)%bind_Return. cbn in *.
      repeat split; intros (? & ? & _)%Hsplit; auto. done. }
    destruct (String.eqb_spec a "--output") as [->|_].
    { intros (H1 & H2 & H3 & H4)%IH1. cbn in *.
      repeat split; intros (? & ? & _)%Hsplit; auto. done. }
    intros (H1 & H2 & H3 & H4)%IH2.
    repeat split; intros (_ & _ & ?)%Hsplit; auto.
Qed.

Lemma options_not_given_keep_their_value_witness :
  opt_data_dir {| opt_data_dir := None; opt_workers := Some 4%Z; opt_timeout := 60%Z;
                  opt_output_file := None |}
  = opt_data_dir default_options.
Proof.
  refine (proj1 (options_not_given_keep_their_value example_int
                   ["--verbose"; "--workers"; "4"; "--timeout"; "60"; "--output"]
                   default_options _ _) _).
  - vm_compute. reflexivity.
  - apply (bool_decide_unpack _). vm_compute. reflexivity.
Defined.

(** X24. The loop over the arguments raises only what [int] raises on the
    argument that follows [--workers] or [--timeout]; no other argument is
    ever converted. *)
Theorem argument_errors_come_from_numbers :
  ∀ (int_ : string → outcome Z) (argv : list string) (o : Options) (e : exn),
    parse_arguments int_ argv o = Raise e →
    ∃ before option value after,
      argv = before ++ option :: value :: after
      ∧ option ∈ ["--workers"; "--timeout"]
      ∧ int_ value = Raise e.
Proof.
  intros int_ argv. induction argv as [|a|a b l IH1 IH2] using two_step_induction;
    intros o e; [discriminate..|].
  cbn [parse_arguments].
  assert (∀ o1, parse_arguments int_ l o1 = Raise e →
                ∃ before option value after,
                  a :: b :: l = before ++ option :: value :: after
                  ∧ option ∈ ["--workers"; "--timeout"]
                  ∧ int_ value = Raise e) as Hrest.
  { intros o1 (before & opt & value & after & -> & Hopt & Hint)%IH1.
    by exists (a :: b :: before), opt, value, after. }
  destruct (String.eqb_spec a "--data-dir") as [->|_]; [apply Hrest|].
  destruct (String.eqb_spec a "--workers") as [->|_].
  { destruct (int_ b) as [n|e'] eqn:Hint; cbn [mbind outcome_bind]; [apply Hrest|].
    intros [= ->]. exists [], "--workers", b, l.
    split; [reflexivity|]. split; [by left | exact Hint]. }
  destruct (String.eqb_spec a "--timeout") as [->|_].
  { destruct (int_ b) as [n|e'] eqn:Hint; cbn [mbind outcome_bind]; [apply Hrest|].
    intros [= ->]. exists [], "--timeout", b, l.
    split; [reflexivity|]. split; [right; by left | exact Hint]. }
  destruct (String.eqb_spec a "--output") as [->|_]; [apply Hrest|].
  intros (before & opt & value & after & Heq & Hopt & Hint)%IH2.
  exists (a :: before), opt, value, after. by rewrite Heq.
Qed.

Lemma argument_errors_come_from_numbers_witness :
  ∃ before option value after,
    ["--data-dir"; "--workers"; "--workers"; "four"]
    = before ++ option :: value :: after
    ∧ option ∈ ["--workers"; "--timeout"]
    ∧ example_int value = Raise (ValueError "invalid literal for int() with base 10").
Proof.
  refine (argument_errors_come_from_numbers example_int
            ["--data-dir"; "--workers"; "--workers"; "four"] default_options _ _).
  vm_compute. reflexivity.
Defined.
